(** * Img-Stitching: a shallow embedding of [Img_stitching2.py]

    The development follows the Python source function by function:
    the class [VideMosaic] ([__init__], [process_first_frame], [match],
    [process_frame], [findHomography], [warp]) and the driver [main].

    Conventions of the embedding.
    - Floating-point numbers are IEEE 754 numbers, values of [spec_float]
      with the operations of the Standard Library: binary32 for the
      [np.float32] arrays of [findHomography], binary64 for Python floats.
      Every operation rounds to nearest, ties to even, and there are
      infinities and NaN.
    - Keypoint coordinates, match distances, matrix entries and canvas
      samples are finite floats, written as the rationals they are; the
      matrix product and the ratio test are computed on these rationals.
    - Frames delivered by the decoder are [uint8] arrays, modelled as nested
      lists of [N]; the canvas is a [float64] array, modelled as nested
      lists of [Q].
    - Python exceptions are values of [PyExc]; a computation that may raise
      returns a [result]; [print] and the calls to the fitting and
      resampling routines of OpenCV are recorded in an event log.
    - The routines of OpenCV (detector, matchers, robust fits, resampling)
      are external: they are the fields of the class [Cv2]; what the
      program relies on from them is the class [Cv2Contract].  The one
      point where the versions of NumPy differ for this program, the type
      of a [float32] scalar times a Python float, is the class [NumPy].
    - [cap.release], [destroyAllWindows] and the last [else] of [main],
      which no run reaches, leave nothing in the model. *)

From Stdlib Require Import String.
From Stdlib Require Import Bool Arith ZArith QArith Qabs Qround Lia.
From Stdlib Require Import SpecFloat.
From Stdlib Require Import List Permutation Sorted.
Import ListNotations.
Close Scope Q_scope.

Set Implicit Arguments.

(* ================================================================== *)
(** ** Floating-point numbers *)

Module Float.

Section Format.

(** A format: the number of bits of the mantissa and the exponent of the
    infinities. *)
Variables prec emax : Z.

(** The float nearest to an integer. *)
Definition of_Z (z : Z) : spec_float := binary_normalize prec emax z 0 false.

(** The float nearest to a rational: the quotient of the numerator by the
    denominator, rounded once. *)
Definition of_Q (q : Q) : spec_float :=
  match Qnum q with
  | Z0 => S754_zero false
  | Zpos n => SFdiv prec emax (S754_finite false n 0) (S754_finite false (Qden q) 0)
  | Zneg n => SFdiv prec emax (S754_finite true n 0) (S754_finite false (Qden q) 0)
  end.

(** A float of another format, rounded to this one. *)
Definition of_float (x : spec_float) : spec_float :=
  match x with
  | S754_finite s m e => binary_round prec emax s m e
  | _ => x
  end.

End Format.

(** [x > y]: false when one of them is NaN. *)
Definition gt (x y : spec_float) : bool := SFltb y x.

(** The integer part of a finite float, toward zero. *)
Definition trunc (x : spec_float) : option Z :=
  match x with
  | S754_zero _ => Some 0%Z
  | S754_finite s m e =>
      let a := match e with
               | Zneg p => Z.shiftr (Zpos m) (Zpos p)
               | _ => Z.shiftl (Zpos m) e
               end in
      Some (if s then Z.opp a else a)
  | _ => None
  end.

(** The rational a finite float is. *)
Definition to_Q (x : spec_float) : option Q :=
  match x with
  | S754_zero _ => Some 0%Q
  | S754_finite s m e =>
      let v := match e with
               | Zneg p => Qmake (Zpos m) (2 ^ p)
               | _ => inject_Z (Zpos m * 2 ^ e)
               end in
      Some (Qred (if s then Qopp v else v))
  | _ => None
  end.

End Float.

(** binary32: [np.float32]. *)
Module F32.
Definition prec : Z := 24.
Definition emax : Z := 128.
Definition zero : spec_float := S754_zero false.
Definition add : spec_float -> spec_float -> spec_float := SFadd prec emax.
Definition sub : spec_float -> spec_float -> spec_float := SFsub prec emax.
Definition mul : spec_float -> spec_float -> spec_float := SFmul prec emax.
Definition div : spec_float -> spec_float -> spec_float := SFdiv prec emax.
Definition abs : spec_float -> spec_float := SFabs.
Definition of_Z : Z -> spec_float := Float.of_Z prec emax.
Definition of_Q : Q -> spec_float := Float.of_Q prec emax.
Definition of_float : spec_float -> spec_float := Float.of_float prec emax.
End F32.

(** binary64: Python floats and [np.float64]. *)
Module F64.
Definition prec : Z := 53.
Definition emax : Z := 1024.
Definition mul : spec_float -> spec_float -> spec_float := SFmul prec emax.
Definition of_Z : Z -> spec_float := Float.of_Z prec emax.
Definition of_Q : Q -> spec_float := Float.of_Q prec emax.
Definition of_float : spec_float -> spec_float := Float.of_float prec emax.
End F64.

Definition float32 : Type := spec_float.
Definition float64 : Type := spec_float.

(* ================================================================== *)
(** ** Python runtime: exceptions, results, the event log *)

Module Py.

Inductive ExcType :=
  AttributeError | IndexError | ValueError | OverflowError | CvError.

Record PyExc := { exc_type : ExcType; exc_msg : string }.

Inductive result (A : Type) : Type :=
| Ok (a : A)
| Raise (e : PyExc).
Arguments Ok {A} a.
Arguments Raise {A} e.

Definition bind {A B} (r : result A) (f : A -> result B) : result B :=
  match r with
  | Ok a => f a
  | Raise e => Raise e
  end.

Definition is_ok {A} (r : result A) : bool :=
  match r with Ok _ => true | Raise _ => false end.

(** [int(x)] on a float written as a rational: truncation toward zero. *)
Definition int (x : Q) : Z := Z.quot (Qnum x) (Zpos (Qden x)).

(** [x < y] on floats written as rationals. *)
Definition lt (x y : Q) : bool := negb (Qle_bool y x).

(** A Python number: an [int] or a [float]. *)
Inductive number := PyInt (z : Z) | PyFloat (x : float64).

(** The float a decimal literal such as [1.2] denotes. *)
Definition float_literal (q : Q) : float64 := F64.of_Q q.

Definition int_too_large : PyExc :=
  {| exc_type := OverflowError; exc_msg := "int too large to convert to float" |}.
Definition infinity_to_integer : PyExc :=
  {| exc_type := OverflowError; exc_msg := "cannot convert float infinity to integer" |}.
Definition nan_to_integer : PyExc :=
  {| exc_type := ValueError; exc_msg := "cannot convert float NaN to integer" |}.

(** The conversion of an [int] operand of a float operation. *)
Definition float_of_int (n : Z) : result float64 :=
  match F64.of_Z n with
  | S754_infinity _ => Raise int_too_large
  | x => Ok x
  end.

(** [a * n] for a number [a] and an [int] [n]. *)
Definition mul_int (a : number) (n : Z) : result number :=
  match a with
  | PyInt z => Ok (PyInt (z * n))
  | PyFloat x => bind (float_of_int n) (fun y => Ok (PyFloat (F64.mul x y)))
  end.

(** [int(a)] for a number [a]. *)
Definition int_of_number (a : number) : result Z :=
  match a with
  | PyInt z => Ok z
  | PyFloat x =>
      match Float.trunc x with
      | Some z => Ok z
      | None => Raise (match x with
                       | S754_nan => nan_to_integer
                       | _ => infinity_to_integer
                       end)
      end
  end.

(** [int(a * n)]. *)
Definition int_times (a : number) (n : Z) : result Z :=
  bind (mul_int a n) int_of_number.

(** Bounds of the slice [start:stop] of a sequence of length [len]
    (step 1): a negative bound counts from the end, then both bounds are
    clipped to [0, len]. *)
Definition slice_bound (i len : Z) : Z :=
  if (i <? 0)%Z then Z.max 0 (i + len) else Z.min i len.

Definition slice_indices (start stop len : Z) : Z * Z :=
  (slice_bound start len, slice_bound stop len).

End Py.
Import Py.

Declare Scope py_scope.
Delimit Scope py_scope with py.
Notation "x <- e ;; k" := (Py.bind e (fun x => k))
  (at level 61, e at next level, right associativity) : py_scope.
Open Scope py_scope.

(** The exceptions the program can raise. *)
Definition index_error : PyExc :=
  {| exc_type := IndexError; exc_msg := "tuple index out of range" |}.
Definition none_has_no_shape : PyExc :=
  {| exc_type := AttributeError;
     exc_msg := "'NoneType' object has no attribute 'shape'" |}.
Definition no_detector : PyExc :=
  {| exc_type := AttributeError;
     exc_msg := "'VideMosaic' object has no attribute 'detector'" |}.
Definition unpack_error : PyExc :=
  {| exc_type := ValueError; exc_msg := "not enough values to unpack" |}.
Definition matmul_mismatch : PyExc :=
  {| exc_type := ValueError; exc_msg := "matmul: mismatch in core dimension" |}.
Definition negative_dimensions : PyExc :=
  {| exc_type := ValueError; exc_msg := "negative dimensions are not allowed" |}.
Definition broadcast_error : PyExc :=
  {| exc_type := ValueError; exc_msg := "could not broadcast input array" |}.
Definition index_out_of_bounds : PyExc :=
  {| exc_type := IndexError; exc_msg := "index is out of bounds" |}.
Definition mask_mismatch : PyExc :=
  {| exc_type := IndexError;
     exc_msg := "boolean index did not match indexed array" |}.

(* ================================================================== *)
(** ** NumPy arrays *)

Module Np.

(** A 2-D [float64] array, row by row. *)
Definition Matrix := list (list Q).

Definition nrows (m : Matrix) : nat := length m.
Definition ncols (m : Matrix) : nat :=
  match m with [] => 0 | r :: _ => length r end.

(** [m.shape == (r, c)]. *)
Definition has_shape (m : Matrix) (r c : nat) : bool :=
  (length m =? r) && forallb (fun row => length row =? c) m.

Definition entry (m : Matrix) (i j : nat) : Q := nth j (nth i m []) 0%Q.

Definition column (j : nat) (m : Matrix) : list Q :=
  map (fun row => nth j row 0%Q) m.

Fixpoint dot (u v : list Q) : Q :=
  match u, v with
  | x :: u', y :: v' => (x * y + dot u' v')%Q
  | _, _ => 0%Q
  end.

(** [np.matmul(a, b)] on 2-D arrays: the columns of [a] must be the rows
    of [b]. *)
Definition matmul (a b : Matrix) : result Matrix :=
  if ncols a =? nrows b then
    Ok (map (fun row => map (fun j => dot row (column j b)) (seq 0 (ncols b))) a)
  else Raise matmul_mismatch.

(** [np.vstack([m, row])]. *)
Definition vstack (m : Matrix) (row : list Q) : Matrix := m ++ [row].

(** [np.eye(n)]. *)
Definition eye (n : nat) : Matrix :=
  map (fun i => map (fun j => if i =? j then 1%Q else 0%Q) (seq 0 n)) (seq 0 n).

Fixpoint set_nth {A} (l : list A) (i : nat) (v : A) : list A :=
  match l, i with
  | [], _ => []
  | _ :: t, O => v :: t
  | x :: t, S i' => x :: set_nth t i' v
  end.

(** [m[i, j] = v]; an index outside the array raises. *)
Definition setitem (m : Matrix) (i j : nat) (v : Q) : result Matrix :=
  if (i <? nrows m) && (j <? ncols m) then
    Ok (set_nth m i (set_nth (nth i m []) j v))
  else Raise index_out_of_bounds.

(** 3-D arrays (rows, columns, channels).  The extents are read off the
    nested list, so they are those of the NumPy array whenever no extent
    is zero, as for every decoded frame and every canvas with at least one
    row and one column. *)
Definition Array3 (A : Type) := list (list (list A)).

Definition shape3 {A} (a : Array3 A) : nat * nat * nat :=
  (length a, length (hd [] a), length (hd [] (hd [] a))).

Definition get3 {A} (d : A) (a : Array3 A) (r c k : nat) : A :=
  nth k (nth c (nth r a []) []) d.

Definition tabulate3 {A} (R C K : nat) (f : nat -> nat -> nat -> A) : Array3 A :=
  map (fun r => map (fun c => map (fun k => f r c k) (seq 0 K)) (seq 0 C)) (seq 0 R).

(** [np.zeros(shape=(R, C, K))]. *)
Definition zeros (R C K : nat) : Array3 Q := tabulate3 R C K (fun _ _ _ => 0%Q).

(** [np.mean(a, axis=0)] on one coordinate of a [float32] array of
    points.  The reduction runs along the first axis of an array stored
    row by row: NumPy adds the points one after the other, from 0 (the
    pairwise summation is for a reduction along the last axis only), and
    divides the sum by their number, all in [float32].  (NumPy 2 divides
    in [float64] and rounds the quotient to [float32]: the same [float32]
    for fewer than 2^24 points.) *)
Definition sum (l : list float32) : float32 := fold_left F32.add l F32.zero.
Definition mean (l : list float32) : float32 :=
  F32.div (sum l) (F32.of_Z (Z.of_nat (length l))).

End Np.
Import Np.


(* ================================================================== *)
(** ** Data of the program *)

(** A 2-D point [(x, y)] of Python floats, and a point of a [float32]
    array. *)
Definition Point : Type := Q * Q.
Definition Point32 : Type := float32 * float32.

(** [cv2.KeyPoint]: only the location [pt] is read by the program. *)
Record KeyPoint := { pt : Point }.

(** [cv2.DMatch]: [queryIdx] indexes the current keypoints, [trainIdx] the
    previous ones. *)
Record DMatch := { queryIdx : nat; trainIdx : nat; distance : Q }.

(** One descriptor per keypoint; [None] is what [detectAndCompute] returns
    for the descriptors of an image without keypoints. *)
Definition Descriptors : Type := list (list Q).

(** A decoded frame ([uint8], rows x columns x channels), its grey version
    and the canvas ([float64]). *)
Definition Frame : Type := Array3 N.
Definition Gray : Type := list (list N).
Definition Canvas : Type := Array3 Q.

(** A [uint8] sample stored into the [float64] canvas. *)
Definition to_float (n : N) : Q := inject_Z (Z.of_N n).

(** [cv2.SIFT_create(n)] / [cv2.ORB_create(n)]. *)
Inductive Detector := SIFT_create (nfeatures : nat) | ORB_create (nfeatures : nat).

(** [cv2.FlannBasedMatcher(index_params, search_params)] /
    [cv2.BFMatcher(cv2.NORM_HAMMING, crossCheck)]. *)
Inductive Matcher :=
| FlannBasedMatcher (algorithm trees checks : nat)
| BFMatcher_NORM_HAMMING (crossCheck : bool).

(** What a run leaves on the outside: printed lines and the calls to the
    fitting, resampling and writing routines of OpenCV. *)
Inductive Event :=
| Printed (s : string)
| Called_estimateAffine2D (src dst : list Point32)
| Called_findHomography (src dst : list Point32)
| Called_warpAffine (M : Matrix) (dsize : nat * nat)
| Called_warpPerspective (M : Matrix) (dsize : nat * nat)
| Called_imwrite (name : string) (img : Canvas).

(** The routines of OpenCV the program calls.  The matchers and the
    robust fits may raise [cv2.error]; the fits return [None] when they
    find no transform. *)
Class Cv2 := {
  cvtColor_BGR2GRAY : Frame -> Gray;
  detectAndCompute : Detector -> Gray -> list KeyPoint * option Descriptors;
  knnMatch : Matcher -> option Descriptors -> option Descriptors -> nat ->
             result (list (list DMatch));
  bf_match : Matcher -> option Descriptors -> option Descriptors ->
             result (list DMatch);
  estimateAffine2D_RANSAC : list Point32 -> list Point32 -> result (option Matrix);
  findHomography_RANSAC : list Point32 -> list Point32 -> result (option Matrix);
  warpAffine : Frame -> Matrix -> nat * nat -> Frame;
  warpPerspective : Frame -> Matrix -> nat * nat -> Frame
}.

(** Number of descriptors in a descriptor array. *)
Definition n_descriptors (d : option Descriptors) : nat :=
  match d with None => 0 | Some rows => length rows end.

(** What the program relies on from OpenCV: without query descriptors a
    matcher returns no match, whatever the train descriptors; when it
    returns, it returns one list of candidates (resp. at most one match)
    per query descriptor; an affine fit is 2x3 and a projective fit is 3x3;
    there is one descriptor per keypoint. *)
Class Cv2Contract (cv : Cv2) : Prop := {
  knnMatch_no_query : forall m q t k,
    n_descriptors q = 0 -> knnMatch m q t k = Ok [];
  knnMatch_rows : forall m q t k rows,
    knnMatch m q t k = Ok rows -> length rows <= n_descriptors q;
  bf_match_no_query : forall m q t,
    n_descriptors q = 0 -> bf_match m q t = Ok [];
  bf_match_rows : forall m q t matches,
    bf_match m q t = Ok matches -> length matches <= n_descriptors q;
  affine_shape : forall p1 p2 M,
    estimateAffine2D_RANSAC p1 p2 = Ok (Some M) -> has_shape M 2 3 = true;
  homography_shape : forall p1 p2 M,
    findHomography_RANSAC p1 p2 = Ok (Some M) -> has_shape M 3 3 = true;
  detect_cardinality : forall d g,
    n_descriptors (snd (detectAndCompute d g)) = length (fst (detectAndCompute d g))
}.

(* ================================================================== *)
(** ** [VideMosaic.findHomography] *)

(** [[kp[i].pt for i in idxs]]: the first index out of range raises. *)
Fixpoint points_at (kp : list KeyPoint) (idxs : list nat) : result (list Point) :=
  match idxs with
  | [] => Ok []
  | i :: rest =>
      match nth_error kp i with
      | None => Raise index_error
      | Some k => ps <- points_at kp rest ;; Ok (pt k :: ps)
      end
  end.

(** [np.float32([...]).reshape(-1, 1, 2)]: each coordinate becomes the
    nearest [float32]. *)
Definition np_float32 (points : list Point) : list Point32 :=
  map (fun p => (F32.of_Q (fst p), F32.of_Q (snd p))) points.

(** [image_2_points - image_1_points], element by element, in [float32]. *)
Fixpoint sub_points (a b : list Point32) : list Point32 :=
  match a, b with
  | (x2, y2) :: a', (x1, y1) :: b' =>
      (F32.sub x2 x1, F32.sub y2 y1) :: sub_points a' b'
  | _, _ => []
  end.

(** [np.mean(displacements, axis=0)[0]]. *)
Definition mean_displacement (d : list Point32) : float32 * float32 :=
  (Np.mean (map fst d), Np.mean (map snd d)).

Inductive Motion := Horizontal | Vertical | Complex.

(** How NumPy types [x * 1.5] for a [float32] scalar [x]: since NumPy 2 a
    Python float is weak and the product is a [float32]; before, the
    product is a [float64]. *)
Class NumPy := { weak_python_floats : bool }.

Section Classification.

Context {numpy : NumPy}.

(** [a > b * 1.5] for [float32] scalars [a] and [b]: the product, rounded
    to its type, is compared with [a] in that type. *)
Definition gt_times_1_5 (a b : float32) : bool :=
  if weak_python_floats then
    Float.gt a (F32.mul b (F32.of_float (Py.float_literal (15 # 10))))
  else
    Float.gt (F64.of_float a) (F64.mul (F64.of_float b) (Py.float_literal (15 # 10))).

(** The [if] / [elif] / [else] on the mean displacement. *)
Definition dominant_motion (dx dy : float32) : Motion :=
  if gt_times_1_5 (F32.abs dx) (F32.abs dy) then Horizontal
  else if gt_times_1_5 (F32.abs dy) (F32.abs dx) then Vertical
  else Complex.

End Classification.

Definition motion_message (m : Motion) : string :=
  match m with
  | Horizontal => "Detected Horizontal Motion"
  | Vertical => "Detected Vertical Motion"
  | Complex => "Detected Diagonal/Complex Motion"
  end.

(** "Convert to 3x3 matrix if necessary": reading [.shape] of [None]
    raises; a 2x3 matrix gets the row [[0, 0, 1]]. *)
Definition convert_to_3x3 (transform_matrix : option Matrix) : result Matrix :=
  match transform_matrix with
  | None => Raise none_has_no_shape
  | Some M =>
      if has_shape M 2 3 then Ok (vstack M [0; 0; 1]%Q) else Ok M
  end.

(* ================================================================== *)
(** ** [VideMosaic.match]: ratio test, [sorted], [[:30]] *)

(** [[m for m, n in pair_matches if m.distance < 0.7 * n.distance]]: an
    entry that is not a pair cannot be unpacked. *)
Fixpoint ratio_test (pair_matches : list (list DMatch)) : result (list DMatch) :=
  match pair_matches with
  | [] => Ok []
  | cand :: rest =>
      match cand with
      | [m; n] =>
          kept <- ratio_test rest ;;
          Ok (if Py.lt (distance m) ((7 # 10) * distance n)%Q then m :: kept else kept)
      | _ => Raise unpack_error
      end
  end.

(** [sorted(matches, key=lambda x: x.distance)]: a stable sort, here by
    insertion from the right. *)
Fixpoint insert_by_distance (x : DMatch) (l : list DMatch) : list DMatch :=
  match l with
  | [] => [x]
  | y :: l' =>
      if Qle_bool (distance x) (distance y) then x :: y :: l'
      else y :: insert_by_distance x l'
  end.

Definition sorted_by_distance (matches : list DMatch) : list DMatch :=
  fold_right insert_by_distance [] matches.

(** The program keeps the best 30 matches. *)
Definition match_count_cap : nat := 30.

(* ================================================================== *)
(** ** The merge of [VideMosaic.warp] *)

Fixpoint map2 {A B C} (f : A -> B -> C) (la : list A) (lb : list B) : list C :=
  match la, lb with
  | a :: la', b :: lb' => f a b :: map2 f la' lb'
  | _, _ => []
  end.

(** One sample of [output_img[warped_img > 0] = warped_img[warped_img > 0]]. *)
Definition merge_sample (o : Q) (w : N) : Q :=
  if (0 <? w)%N then to_float w else o.

Definition shape_eqb (s t : nat * nat * nat) : bool :=
  let '(a, b, c) := s in
  let '(a', b', c') := t in
  (a =? a') && (b =? b') && (c =? c').

(** The boolean mask [warped_img > 0] must have the shape of the canvas. *)
Definition merge (output_img : Canvas) (warped_img : Frame) : result Canvas :=
  if shape_eqb (shape3 output_img) (shape3 warped_img) then
    Ok (map2 (map2 (map2 merge_sample)) output_img warped_img)
  else Raise mask_mismatch.

(* ================================================================== *)
(** ** The object [VideMosaic] *)

(** The attributes of the object.  [frame_cur], [kp_cur], [des_cur] and
    [H] do not exist before the first call of [process_frame]: they are
    [None] until then. *)
Record VideMosaic := {
  detector_type : string;
  detector : Detector;
  bf : Matcher;
  visualize : bool;
  frame_prev : Frame;
  kp_prev : list KeyPoint;
  des_prev : option Descriptors;
  output_img : Canvas;
  w_offset : Z;
  h_offset : Z;
  H_old : Matrix;
  frame_cur : option Frame;
  kp_cur : option (list KeyPoint);
  des_cur : option (option Descriptors);
  H : option Matrix
}.

(** [self.frame_cur = ...; self.kp_cur, self.des_cur = ...]. *)
Definition set_cur (self : VideMosaic) (f : Frame) (kp : list KeyPoint)
    (des : option Descriptors) : VideMosaic :=
  {| detector_type := detector_type self; detector := detector self; bf := bf self;
     visualize := visualize self;
     frame_prev := frame_prev self; kp_prev := kp_prev self; des_prev := des_prev self;
     output_img := output_img self; w_offset := w_offset self; h_offset := h_offset self;
     H_old := H_old self;
     frame_cur := Some f; kp_cur := Some kp; des_cur := Some des; H := H self |}.

(** [self.H = ...]. *)
Definition set_H (self : VideMosaic) (M : Matrix) : VideMosaic :=
  {| detector_type := detector_type self; detector := detector self; bf := bf self;
     visualize := visualize self;
     frame_prev := frame_prev self; kp_prev := kp_prev self; des_prev := des_prev self;
     output_img := output_img self; w_offset := w_offset self; h_offset := h_offset self;
     H_old := H_old self;
     frame_cur := frame_cur self; kp_cur := kp_cur self; des_cur := des_cur self;
     H := Some M |}.

(** The in-place update of [self.output_img]. *)
Definition set_output_img (self : VideMosaic) (out : Canvas) : VideMosaic :=
  {| detector_type := detector_type self; detector := detector self; bf := bf self;
     visualize := visualize self;
     frame_prev := frame_prev self; kp_prev := kp_prev self; des_prev := des_prev self;
     output_img := out; w_offset := w_offset self; h_offset := h_offset self;
     H_old := H_old self;
     frame_cur := frame_cur self; kp_cur := kp_cur self; des_cur := des_cur self;
     H := H self |}.

(** "Prepare for next frame": [self.H_old = self.H] and the roll-over of
    the current keypoints, descriptors and frame. *)
Definition roll_over (self : VideMosaic) (M : Matrix) (f : Frame)
    (kp : list KeyPoint) (des : option Descriptors) : VideMosaic :=
  {| detector_type := detector_type self; detector := detector self; bf := bf self;
     visualize := visualize self;
     frame_prev := f; kp_prev := kp; des_prev := des;
     output_img := output_img self; w_offset := w_offset self; h_offset := h_offset self;
     H_old := M;
     frame_cur := frame_cur self; kp_cur := kp_cur self; des_cur := des_cur self;
     H := H self |}.

(** The detector and the matcher [__init__] builds; any other
    [detector_type] leaves the object without them. *)
Definition new_detector (detector_type : string) : option (Detector * Matcher) :=
  if String.eqb detector_type "sift" then
    Some (SIFT_create 600, FlannBasedMatcher 1 5 50)
  else if String.eqb detector_type "orb" then
    Some (ORB_create 600, BFMatcher_NORM_HAMMING true)
  else None.

(** [a[r0:r1, c0:c1, :] = v] with the slice bounds and the broadcasting of
    NumPy: each extent of [v] is the extent of the slice, or 1. *)
Definition broadcastable (v t : nat) : bool := (v =? t) || (v =? 1).
Definition bidx (extent i : nat) : nat := if extent =? 1 then 0 else i.

(** [lo <= i < lo + extent]. *)
Definition in_window (lo extent i : nat) : bool := (lo <=? i) && (i <? lo + extent).

Definition setitem_slice (a : Canvas) (r0 r1 c0 c1 : Z) (v : Frame) : result Canvas :=
  let '(R, C, K) := shape3 a in
  let '(rs, re) := Py.slice_indices r0 r1 (Z.of_nat R) in
  let '(cs, ce) := Py.slice_indices c0 c1 (Z.of_nat C) in
  let nr := Z.to_nat (re - rs) in
  let nc := Z.to_nat (ce - cs) in
  let '(h, w, k) := shape3 v in
  if broadcastable h nr && broadcastable w nc && broadcastable k K then
    Ok (tabulate3 R C K (fun r c ch =>
          if in_window (Z.to_nat rs) nr r && in_window (Z.to_nat cs) nc c
          then to_float (get3 0%N v (bidx h (r - Z.to_nat rs))
                                   (bidx w (c - Z.to_nat cs)) (bidx k ch))
          else get3 0%Q a r c ch))
  else Raise broadcast_error.

(** [np.zeros(shape=(int(a), int(b), c))]. *)
Definition zeros_of (R C : Z) (K : nat) : result Canvas :=
  if (R <? 0)%Z || (C <? 0)%Z then Raise negative_dimensions
  else Ok (zeros (Z.to_nat R) (Z.to_nat C) K).

Definition Q_of_nat (n : nat) : Q := inject_Z (Z.of_nat n).

Section Program.

Context {cv : Cv2} {numpy : NumPy}.

(** The fit of a branch, with what the branch leaves in the log. *)
Definition fit_for (m : Motion) (p1 p2 : list Point32)
  : list Event * result (option Matrix) :=
  match m with
  | Horizontal | Vertical =>
      ([Printed (motion_message m); Called_estimateAffine2D p1 p2],
       estimateAffine2D_RANSAC p1 p2)
  | Complex =>
      ([Printed (motion_message m); Called_findHomography p1 p2],
       findHomography_RANSAC p1 p2)
  end.

(** The body of [findHomography] down to the fit: the matched points, the
    classification and the robust fit of its branch. *)
Definition estimate (image_1_kp image_2_kp : list KeyPoint)
    (matches : list DMatch) : list Event * result (option Matrix) :=
  match points_at image_1_kp (map queryIdx matches) with
  | Raise e => ([], Raise e)
  | Ok points_1 =>
  let image_1_points := np_float32 points_1 in
  match points_at image_2_kp (map trainIdx matches) with
  | Raise e => ([], Raise e)
  | Ok points_2 =>
      let image_2_points := np_float32 points_2 in
      let displacements := sub_points image_2_points image_1_points in
      let '(dx, dy) := mean_displacement displacements in
      fit_for (dominant_motion dx dy) image_1_points image_2_points
  end end.

Definition findHomography (image_1_kp image_2_kp : list KeyPoint)
    (matches : list DMatch) : list Event * result Matrix :=
  let '(log, fit) := estimate image_1_kp image_2_kp matches in
  (log, transform_matrix <- fit ;; convert_to_3x3 transform_matrix).

(** [VideMosaic.process_first_frame]: what it stores in [frame_prev],
    [kp_prev] and [des_prev]. *)
Definition process_first_frame (det : Detector) (first_image : Frame)
  : Frame * list KeyPoint * option Descriptors :=
  let frame_gray_prev := cvtColor_BGR2GRAY first_image in
  let '(kp, des) := detectAndCompute det frame_gray_prev in
  (first_image, kp, des).

(** The defaults of [__init__]: [output_height_times=3] and
    [output_width_times=1.2]. *)
Definition height_times_default : Py.number := PyInt 3.
Definition width_times_default : Py.number := PyFloat (Py.float_literal (12 # 10)).

(** [VideMosaic.__init__].  The extents of the canvas are the integer
    parts of the products as Python computes them.  The quotients of the
    extents by 1 and by 2 and their differences are exact in [float64]
    (the extents of an array are far below 2^53): they are written on
    rationals. *)
Definition VideMosaic_init (first_image : Frame)
    (output_height_times output_width_times : Py.number) (detector_type : string)
  : result VideMosaic :=
  match new_detector detector_type with
  | None => Raise no_detector
  | Some (det, matcher) =>
      let '(f_prev, kp, des) := process_first_frame det first_image in
      let '(h, w, k) := shape3 first_image in
      rows <- Py.int_times output_height_times (Z.of_nat h) ;;
      cols <- Py.int_times output_width_times (Z.of_nat w) ;;
      out0 <- zeros_of rows cols k ;;
      let '(oh, ow, _) := shape3 out0 in
      let w_off := Py.int (Q_of_nat oh / 1 - Q_of_nat h / 1)%Q in
      let h_off := Py.int (Q_of_nat ow / 2 - Q_of_nat w / 2)%Q in
      out <- setitem_slice out0 w_off (w_off + Z.of_nat h)
                                h_off (h_off + Z.of_nat w) first_image ;;
      H0 <- setitem (eye 3) 0 2 (inject_Z h_off) ;;
      H1 <- setitem H0 1 2 (inject_Z w_off) ;;
      Ok {| detector_type := detector_type; detector := det; bf := matcher;
            visualize := false;
            frame_prev := f_prev; kp_prev := kp; des_prev := des;
            output_img := out; w_offset := w_off; h_offset := h_off;
            H_old := H1;
            frame_cur := None; kp_cur := None; des_cur := None; H := None |}
  end.

(** The list handed to [sorted] in [VideMosaic.match]. *)
Definition raw_matches (self : VideMosaic) (des_cur des_prev : option Descriptors)
  : result (list DMatch) :=
  if String.eqb (detector_type self) "sift" then
    pair_matches <- knnMatch (bf self) des_cur des_prev 2 ;;
    ratio_test pair_matches
  else bf_match (bf self) des_cur des_prev.

(** [VideMosaic.match]. *)
Definition match_ (self : VideMosaic) (des_cur des_prev : option Descriptors)
  : result (list DMatch) :=
  matches <- raw_matches self des_cur des_prev ;;
  Ok (firstn match_count_cap (sorted_by_distance matches)).

(** [VideMosaic.warp]: the resampling is chosen on the shape of [H]; the
    warped frame is merged into [self.output_img]. *)
Definition warp (self : VideMosaic) (frame_cur : Frame) (M : Matrix)
  : VideMosaic * (list Event * result Canvas) :=
  let '(oh, ow, _) := shape3 (output_img self) in
  let '(log, warped_img) :=
    if has_shape M 2 3 then
      ([Called_warpAffine M (ow, oh)], warpAffine frame_cur M (ow, oh))
    else
      ([Called_warpPerspective M (ow, oh)], warpPerspective frame_cur M (ow, oh)) in
  match merge (output_img self) warped_img with
  | Raise e => (self, (log, Raise e))
  | Ok out => (set_output_img self out, (log, Ok out))
  end.

(** [VideMosaic.process_frame]: the object after the call, the log of the
    call, and whether it returned or raised. *)
Definition process_frame (self : VideMosaic) (frame_cur : Frame)
  : VideMosaic * (list Event * result unit) :=
  let frame_gray_cur := cvtColor_BGR2GRAY frame_cur in
  let '(kp, des) := detectAndCompute (detector self) frame_gray_cur in
  let self1 := set_cur self frame_cur kp des in
  match match_ self1 des (des_prev self1) with
  | Raise e => (self1, ([], Raise e))
  | Ok matches =>
      if length matches <? 4 then (self1, ([], Ok tt))
      else
        let '(log1, r) := findHomography kp (kp_prev self1) matches in
        match r with
        | Raise e => (self1, (log1, Raise e))
        | Ok Hinc =>
            let self2 := set_H self1 Hinc in
            match matmul (H_old self2) Hinc with
            | Raise e => (self2, (log1, Raise e))
            | Ok Hnew =>
                let self3 := set_H self2 Hnew in
                let '(self4, (log2, w)) := warp self3 frame_cur Hnew in
                match w with
                | Raise e => (self4, (log1 ++ log2, Raise e))
                | Ok _ =>
                    (roll_over self4 Hnew frame_cur kp des, (log1 ++ log2, Ok tt))
                end
            end
        end
  end.

(** The keypoints of a frame and its matches against the previous frame,
    as [process_frame] computes them. *)
Definition frame_keypoints (self : VideMosaic) (frame_cur : Frame) : list KeyPoint :=
  fst (detectAndCompute (detector self) (cvtColor_BGR2GRAY frame_cur)).

Definition frame_descriptors (self : VideMosaic) (frame_cur : Frame)
  : option Descriptors :=
  snd (detectAndCompute (detector self) (cvtColor_BGR2GRAY frame_cur)).

Definition frame_matches (self : VideMosaic) (frame_cur : Frame)
  : result (list DMatch) :=
  match_ self (frame_descriptors self frame_cur) (des_prev self).

(** The loop of [main] after the first frame: [frames] are the frames the
    decoder still delivers, [idx] the index of the next one, and
    [q_pressed i] tells whether [q] is read by [waitKey] after frame [i]. *)
Fixpoint main_loop (video_mosaic : VideMosaic) (frames : list Frame) (idx : nat)
    (q_pressed : nat -> bool) : list Event * result VideMosaic :=
  match frames with
  | [] => ([], Ok video_mosaic)
  | frame_cur :: rest =>
      let '(vm, (log, r)) := process_frame video_mosaic frame_cur in
      match r with
      | Raise e => (log, Raise e)
      | Ok _ =>
          if q_pressed idx then (log, Ok vm)
          else
            let '(log', r') := main_loop vm rest (S idx) q_pressed in
            (log ++ log', r')
      end
  end.

(** [main]: [video] is [None] when the capture cannot be opened.  The
    result is the canvas written to [mosaic.jpg], if any; an exception of
    [VideMosaic] is not caught. *)
Definition main (video : option (list Frame)) (q_pressed : nat -> bool)
  : list Event * result (option Canvas) :=
  match video with
  | None => ([Printed "Error: Could not open video."], Ok None)
  | Some [] => ([Printed "Error: No frames found in video."], Ok None)
  | Some (first_frame :: rest) =>
      match VideMosaic_init first_frame height_times_default width_times_default
                            "sift" with
      | Raise e => ([], Raise e)
      | Ok video_mosaic =>
          let '(log, r) := main_loop video_mosaic rest 1 q_pressed in
          match r with
          | Raise e => (log, Raise e)
          | Ok vm =>
              (log ++ [Called_imwrite "mosaic.jpg" (output_img vm);
                       Printed "Mosaic saved as mosaic.jpg"],
               Ok (Some (output_img vm)))
          end
      end
  end.

End Program.

(* ================================================================== *)
(** ** A small executable instance of the OpenCV routines

    It is used to run the program on concrete frames.  A keypoint is a
    pixel whose first channel is not zero, described by that value; matches
    are nearest neighbours on the descriptor, and asking for more
    neighbours than there are train descriptors is an error; the fits
    succeed when all the correspondences agree on one translation; the
    resampling translates. *)

Module Toy.

Definition cvtColor (f : Frame) : Gray := map (map (fun px => hd 0%N px)) f.

Definition row_keypoints (r : nat) (row : list N) : list (KeyPoint * list Q) :=
  flat_map (fun cv : nat * N =>
              let (c, v) := cv in
              if (0 <? v)%N
              then [({| pt := (Q_of_nat c, Q_of_nat r) |}, [to_float v])]
              else [])
           (combine (seq 0 (length row)) row).

Definition detect (det : Detector) (g : Gray)
  : list KeyPoint * option Descriptors :=
  let n := match det with SIFT_create n | ORB_create n => n end in
  let found :=
    firstn n (flat_map (fun rr : nat * list N => row_keypoints (fst rr) (snd rr))
                       (combine (seq 0 (length g)) g)) in
  match found with
  | [] => ([], None)
  | _ => (map fst found, Some (map snd found))
  end.

Definition desc_distance (a b : list Q) : Q := Qabs (hd 0%Q a - hd 0%Q b)%Q.

Definition candidates (i : nat) (d : list Q) (train : Descriptors) : list DMatch :=
  sorted_by_distance
    (map (fun jt : nat * list Q =>
            {| queryIdx := i; trainIdx := fst jt; distance := desc_distance d (snd jt) |})
         (combine (seq 0 (length train)) train)).

Definition knn_error : PyExc :=
  {| exc_type := CvError; exc_msg := "knnMatch needs at least k train descriptors" |}.

Definition knn (m : Matcher) (q t : option Descriptors) (k : nat)
  : result (list (list DMatch)) :=
  match q with
  | None | Some [] => Ok []
  | Some qd =>
      let train := match t with Some td => td | None => [] end in
      if length train <? k then Raise knn_error
      else Ok (map (fun id : nat * list Q =>
                      firstn k (candidates (fst id) (snd id) train))
                   (combine (seq 0 (length qd)) qd))
  end.

Definition nearest (m : Matcher) (q t : option Descriptors) : result (list DMatch) :=
  rows <- knn m q t 1 ;; Ok (flat_map (firstn 1) rows).

Definition eqb_point (a b : Point32) : bool :=
  SFeqb (fst a) (fst b) && SFeqb (snd a) (snd b).

(** The translation all correspondences agree on, if there is one. *)
Definition consensus (p1 p2 : list Point32) : option Point :=
  match sub_points p2 p1 with
  | [] => None
  | d :: ds =>
      if forallb (eqb_point d) ds then
        match Float.to_Q (fst d), Float.to_Q (snd d) with
        | Some dx, Some dy => Some (dx, dy)
        | _, _ => None
        end
      else None
  end.

Definition fit_affine (p1 p2 : list Point32) : result (option Matrix) :=
  match consensus p1 p2 with
  | Some (dx, dy) => Ok (Some [[1; 0; dx]; [0; 1; dy]]%Q)
  | None => Ok None
  end.

Definition cv_error : PyExc :=
  {| exc_type := CvError; exc_msg := "findHomography needs at least 4 points" |}.

Definition fit_homography (p1 p2 : list Point32) : result (option Matrix) :=
  if length p1 <? 4 then Raise cv_error
  else match consensus p1 p2 with
       | Some (dx, dy) => Ok (Some [[1; 0; dx]; [0; 1; dy]; [0; 0; 1]]%Q)
       | None => Ok None
       end.

(** Resampling by the integer part of the translation column of [M]. *)
Definition translate (f : Frame) (M : Matrix) (dsize : nat * nat) : Frame :=
  let '(w, h) := dsize in
  let tx := Py.int (entry M 0 2) in
  let ty := Py.int (entry M 1 2) in
  let '(fh, fw, k) := shape3 f in
  tabulate3 h w k (fun r c ch =>
    let sr := (Z.of_nat r - ty)%Z in
    let sc := (Z.of_nat c - tx)%Z in
    if (0 <=? sr)%Z && (sr <? Z.of_nat fh)%Z && (0 <=? sc)%Z && (sc <? Z.of_nat fw)%Z
    then get3 0%N f (Z.to_nat sr) (Z.to_nat sc) ch
    else 0%N).

#[export] Instance cv : Cv2 := {|
  cvtColor_BGR2GRAY := cvtColor;
  detectAndCompute := detect;
  knnMatch := knn;
  bf_match := nearest;
  estimateAffine2D_RANSAC := fit_affine;
  findHomography_RANSAC := fit_homography;
  warpAffine := translate;
  warpPerspective := translate
|}.

(** The runs below are on NumPy 2. *)
#[export] Instance numpy : NumPy := {| weak_python_floats := true |}.

End Toy.

(** Frames and objects the program is run on below. *)
Module Demo.
Import Toy.

Definition px (v : N) : list N := [v; v; v].
Definition gray_frame (g : list (list N)) : Frame := map (map px) g.

(** Four keypoints; [frame_B] is [frame_A] moved one pixel to the right. *)
Definition frame_A : Frame := gray_frame [[10; 0; 50; 0; 0]; [0; 90; 0; 170; 0]]%N.
Definition frame_B : Frame := gray_frame [[0; 10; 0; 50; 0]; [0; 0; 90; 0; 170]]%N.
(** Three keypoints only. *)
Definition frame_3kp : Frame := gray_frame [[10; 0; 50; 0; 0]; [0; 90; 0; 0; 0]]%N.
(** No keypoint. *)
Definition frame_black : Frame := gray_frame [[0; 0; 0; 0; 0]; [0; 0; 0; 0; 0]]%N.
(** The four keypoints of [frame_A], moved by different amounts. *)
Definition frame_torn : Frame := gray_frame [[0; 10; 50; 0; 0]; [90; 0; 0; 0; 170]]%N.

Definition no_key (_ : nat) : bool := false.

Definition blank : VideMosaic :=
  {| detector_type := "sift"; detector := SIFT_create 600;
     bf := FlannBasedMatcher 1 5 50; visualize := false;
     frame_prev := []; kp_prev := []; des_prev := None;
     output_img := []; w_offset := 0; h_offset := 0; H_old := [];
     frame_cur := None; kp_cur := None; des_cur := None; H := None |}.

(** [VideMosaic(frame_A, detector_type="sift")], as [main] builds it. *)
Definition mosaic_A : VideMosaic :=
  Eval vm_compute in
    match VideMosaic_init frame_A height_times_default width_times_default
                          "sift" with
    | Ok vm => vm
    | Raise _ => blank
    end.

End Demo.

#[global] Existing Instance Toy.numpy.

(* ================================================================== *)
(** ** Vocabulary of the properties *)

(** The part of the object that survives a skipped frame. *)
Definition retained (self self' : VideMosaic) : Prop :=
  H_old self' = H_old self /\
  output_img self' = output_img self /\
  kp_prev self' = kp_prev self /\
  des_prev self' = des_prev self /\
  frame_prev self' = frame_prev self.

Definition by_distance (a b : DMatch) : Prop := (distance a <= distance b)%Q.




(** A 3-D array of extents [(R, C, K)]. *)
Definition is_array3 {A} (a : Array3 A) (R C K : nat) : Prop :=
  length a = R /\
  Forall (fun row => length row = C /\ Forall (fun px => length px = K) row) a.

(** The pixel at [(r, c)]: its samples, one per channel. *)
Definition pixel {A} (a : Array3 A) (r c : nat) : list A := nth c (nth r a []) [].

(** The merge read on whole pixels: wherever the warped frame has a pixel
    with a non-zero value, the pixel of the canvas becomes the warped
    pixel. *)
Definition merge_replaces_nonzero_pixels : Prop :=
  forall (out : Canvas) (w : Frame) (out' : Canvas) (R C K r c : nat),
    is_array3 out R C K -> is_array3 w R C K ->
    merge out w = Ok out' ->
    r < R -> c < C ->
    Exists (fun s => s <> 0%N) (pixel w r c) ->
    pixel out' r c = map to_float (pixel w r c).

Section Runs.

Context {cv : Cv2} {numpy : NumPy}.

(** The objects a run can hold: built by [__init__], then any number of
    calls to [process_frame]. *)
Inductive reachable : VideMosaic -> Prop :=
| reach_init first_image hm wm dt vm :
    VideMosaic_init first_image hm wm dt = Ok vm -> reachable vm
| reach_step vm frame_cur :
    reachable vm -> reachable (fst (process_frame vm frame_cur)).

(** What the log may say about resampling, for the object [vm'] a call
    leaves: no call of [warpAffine]; a call of [warpPerspective] is on a
    3x3 matrix, the one stored in [H]. *)
Definition warp_event_ok (vm' : VideMosaic) (ev : Event) : Prop :=
  match ev with
  | Called_warpAffine _ _ => False
  | Called_warpPerspective M _ => has_shape M 3 3 = true /\ H vm' = Some M
  | _ => True
  end.

(** The size [warp] asks of the resampling: (columns, rows) of the canvas. *)
Definition canvas_dsize (self : VideMosaic) : nat * nat :=
  (snd (fst (shape3 (output_img self))), fst (fst (shape3 (output_img self)))).

(** The frame as [warp] resamples it under [M]. *)
Definition warped_frame (self : VideMosaic) (frame_cur : Frame) (M : Matrix) : Frame :=
  if has_shape M 2 3 then warpAffine frame_cur M (canvas_dsize self)
  else warpPerspective frame_cur M (canvas_dsize self).

(** The run on [video] stops with the exception [e] while frame [i] is
    processed: the frames before frame [i] go through, frame [i] raises. *)
Definition aborts_at (video : list Frame) (q_pressed : nat -> bool)
    (i : nat) (e : PyExc) : Prop :=
  Py.is_ok (snd (main (Some (firstn i video)) q_pressed)) = true /\
  snd (main (Some (firstn (S i) video)) q_pressed) = Raise e /\
  snd (main (Some video) q_pressed) = Raise e.

(** The failure that reaches the caller tells which frame failed: the
    index can be read off the exception. *)
Definition failure_carries_frame_index : Prop :=
  exists frame_index : PyExc -> nat,
    forall video q_pressed i e, aborts_at video q_pressed i e -> frame_index e = i.

End Runs.

(** What the ratio test keeps of one entry of [knnMatch]: the best
    candidate, when it is closer than 0.7 times the second best. *)
Definition ratio_kept (cand : list DMatch) : list DMatch :=
  match cand with
  | [m; n] => if Py.lt (distance m) ((7 # 10) * distance n)%Q then [m] else []
  | _ => []
  end.

(** The matches of a list that are at distance [d]. *)
Definition at_distance (d : Q) (l : list DMatch) : list DMatch :=
  filter (fun m => Qeq_bool (distance m) d) l.

(** An event other than the writing of the mosaic. *)
Definition not_imwrite (ev : Event) : Prop :=
  match ev with Called_imwrite _ _ => False | _ => True end.

(** The attributes [__init__] sets once and for all. *)
Definition same_setup (self self' : VideMosaic) : Prop :=
  detector_type self' = detector_type self /\
  detector self' = detector self /\
  bf self' = bf self /\
  visualize self' = visualize self /\
  w_offset self' = w_offset self /\
  h_offset self' = h_offset self /\
  shape3 (output_img self') = shape3 (output_img self).

(** [forall_below bits base p]: [p] holds of the [2 ^ bits] integers from
    [base] on. *)
Fixpoint forall_below (bits : nat) (base : Z) (p : Z -> bool) : bool :=
  match bits with
  | O => p base
  | S b => forall_below b base p && forall_below b (base + 2 ^ Z.of_nat b) p
  end.

(** [int(1.2 * w)] is [12 w / 10], rounded down. *)
Definition default_width_is_exact (w : Z) : bool :=
  match Py.int_times width_times_default w with
  | Ok cols => (cols =? 12 * w / 10)%Z
  | Raise _ => false
  end.

(* ================================================================== *)
(** ** More inputs for the runs *)

(** An object with the binary-descriptor detector, and 32 query
    descriptors matched against one. *)
Definition orb_mosaic : VideMosaic :=
  {| detector_type := "orb"; detector := ORB_create 600;
     bf := BFMatcher_NORM_HAMMING true; visualize := false;
     frame_prev := []; kp_prev := []; des_prev := Some [[0%Q]];
     output_img := []; w_offset := 0; h_offset := 0; H_old := eye 3;
     frame_cur := None; kp_cur := None; des_cur := None; H := None |}.

Definition descriptors_32 : option Descriptors :=
  Some (map (fun i => [Q_of_nat (37 * i mod 32)]) (seq 0 32)).

Definition matches_32 : list DMatch :=
  Eval vm_compute in
    match match_ (cv := Toy.cv) orb_mosaic descriptors_32 (Some [[0%Q]]) with
    | Ok ms => ms
    | Raise _ => []
    end.

(** Four current keypoints and their previous positions, once moved by
    (10, 5) and once by (10, 7). *)
Definition keypoints (l : list Point) : list KeyPoint := map (fun p => {| pt := p |}) l.
Definition cur4 : list KeyPoint := keypoints [(0, 0); (1, 1); (2, 0); (0, 3)]%Q.
Definition prev_10_5 : list KeyPoint := keypoints [(10, 5); (11, 6); (12, 5); (10, 8)]%Q.
Definition prev_10_7 : list KeyPoint := keypoints [(10, 7); (11, 8); (12, 7); (10, 10)]%Q.
Definition matches4 : list DMatch :=
  map (fun i => {| queryIdx := i; trainIdx := i; distance := 0 |}) (seq 0 4).


(** Four keypoints at [x = 1 - 2^-24], the largest [float32] below 1, and
    their previous positions at (4, 2). *)
Definition cur_below_1 : list KeyPoint :=
  keypoints [(16777215 # 16777216, 0); (16777215 # 16777216, 0);
             (16777215 # 16777216, 0); (16777215 # 16777216, 0)]%Q.
Definition prev_4_2 : list KeyPoint := keypoints [(4, 2); (4, 2); (4, 2); (4, 2)]%Q.

(** Two runs: the fit fails on frame 1 of the first and on frame 2 of the
    second, and the caller gets the same exception from both. *)
Definition video_failing_at_1 : list Frame := [Demo.frame_A; Demo.frame_torn].
Definition video_failing_at_2 : list Frame :=
  [Demo.frame_A; Demo.frame_B; Demo.frame_torn].

(* ================================================================== *)
(** ** Properties of [process_frame] *)

Section ProcessFrame.

Context {cv : Cv2} {numpy : NumPy}.

Lemma match_set_cur (self : VideMosaic) f kp des a b :
  match_ (set_cur self f kp des) a b = match_ self a b.
Proof. reflexivity. Qed.

Lemma process_frame_unfold (self : VideMosaic) (frame_cur : Frame) :
  process_frame self frame_cur =
  let kp := frame_keypoints self frame_cur in
  let des := frame_descriptors self frame_cur in
  let self1 := set_cur self frame_cur kp des in
  match frame_matches self frame_cur with
  | Raise e => (self1, ([], Raise e))
  | Ok matches =>
      if length matches <? 4 then (self1, ([], Ok tt))
      else
        match findHomography kp (kp_prev self) matches with
        | (log1, Raise e) => (self1, (log1, Raise e))
        | (log1, Ok Hinc) =>
            match matmul (H_old self) Hinc with
            | Raise e => (set_H self1 Hinc, (log1, Raise e))
            | Ok Hnew =>
                match warp (set_H (set_H self1 Hinc) Hnew) frame_cur Hnew with
                | (self4, (log2, Raise e)) => (self4, (log1 ++ log2, Raise e))
                | (self4, (log2, Ok _)) =>
                    (roll_over self4 Hnew frame_cur kp des, (log1 ++ log2, Ok tt))
                end
            end
        end
  end.
Proof.
  unfold process_frame, frame_matches, frame_keypoints, frame_descriptors.
  destruct (detectAndCompute (detector self) (cvtColor_BGR2GRAY frame_cur)) as [kp des].
  cbn [fst snd]. rewrite match_set_cur. cbn [des_prev set_cur].
  destruct (match_ self des (des_prev self)) as [matches|e]; [|reflexivity].
  destruct (length matches <? 4); [reflexivity|].
  cbn [kp_prev set_cur].
  destruct (findHomography kp (kp_prev self) matches) as [log1 [Hinc|e]]; [|reflexivity].
  cbn [H_old set_H set_cur].
  destruct (matmul (H_old self) Hinc) as [Hnew|e]; [|reflexivity].
  destruct (warp _ frame_cur Hnew) as [self4 [log2 [out|e]]]; reflexivity.
Qed.

Lemma process_frame_skip_eq (self : VideMosaic) (frame_cur : Frame)
    (matches : list DMatch) :
  frame_matches self frame_cur = Ok matches ->
  length matches < 4 ->
  process_frame self frame_cur =
    (set_cur self frame_cur (frame_keypoints self frame_cur)
             (frame_descriptors self frame_cur),
     ([], Ok tt)).
Proof.
  intros Hm Hlen. rewrite process_frame_unfold. cbv zeta. rewrite Hm.
  apply Nat.ltb_lt in Hlen. now rewrite Hlen.
Qed.

(** C1. A frame whose matching against the previous frame yields fewer
    than 4 matches is skipped: [process_frame] returns without raising and
    without any output, and the cumulative pose [H_old], the canvas
    [output_img] and the previous keypoints, descriptors and frame are the
    ones it was called with. *)
Theorem process_frame_skips_below_four_matches
    (self : VideMosaic) (frame_cur : Frame) (matches : list DMatch) :
  frame_matches self frame_cur = Ok matches ->
  length matches < 4 ->
  snd (process_frame self frame_cur) = ([], Ok tt) /\
  retained self (fst (process_frame self frame_cur)).
Proof.
  intros Hm Hlen. rewrite (process_frame_skip_eq self frame_cur Hm Hlen).
  cbn [fst snd]. split; [reflexivity|].
  unfold retained. cbn [set_cur H_old output_img kp_prev des_prev frame_prev].
  repeat split.
Qed.

End ProcessFrame.

Lemma process_frame_skips_below_four_matches_witness :
  length (match frame_matches (cv := Toy.cv) Demo.mosaic_A Demo.frame_3kp with
          | Ok ms => ms | Raise _ => [] end) = 3 /\
  snd (process_frame (cv := Toy.cv) Demo.mosaic_A Demo.frame_3kp) = ([], Ok tt) /\
  retained Demo.mosaic_A (fst (process_frame (cv := Toy.cv) Demo.mosaic_A Demo.frame_3kp)).
Proof.
  split; [vm_compute; reflexivity|].
  apply (process_frame_skips_below_four_matches (cv := Toy.cv)
           Demo.mosaic_A Demo.frame_3kp
           (matches := [ {| queryIdx := 0; trainIdx := 0; distance := 0 |};
                         {| queryIdx := 1; trainIdx := 1; distance := 0 |};
                         {| queryIdx := 2; trainIdx := 2; distance := 0 |} ])).
  - vm_compute. reflexivity.
  - simpl. lia.
Defined.

(* ================================================================== *)
(** ** The instance meets the contract *)

Lemma length_flat_map_firstn_1 {A} (l : list (list A)) :
  length (flat_map (firstn 1) l) <= length l.
Proof.
  induction l as [|x l IH]; cbn [flat_map length]; [lia|].
  rewrite length_app. pose proof (firstn_le_length 1 x). lia.
Qed.

Lemma Toy_knn_no_query m q t k : n_descriptors q = 0 -> Toy.knn m q t k = Ok [].
Proof. destruct q as [[|q0 qd]|]; simpl; (reflexivity || discriminate). Qed.

Lemma Toy_knn_rows m q t k rows :
  Toy.knn m q t k = Ok rows -> length rows <= n_descriptors q.
Proof.
  unfold Toy.knn. destruct q as [[|q0 qd]|].
  - intros E. injection E as <-. apply Nat.le_refl.
  - cbv zeta. destruct (length _ <? k); [discriminate|]. intros E. injection E as <-.
    cbn [length n_descriptors]. rewrite length_map, length_combine, length_seq. lia.
  - intros E. injection E as <-. apply Nat.le_refl.
Qed.

#[export] Instance Toy_contract : Cv2Contract Toy.cv.
Proof.
  constructor.
  - exact Toy_knn_no_query.
  - exact Toy_knn_rows.
  - intros m q t Hn. simpl. unfold Toy.nearest.
    now rewrite (Toy_knn_no_query m q t 1 Hn).
  - intros m q t matches. simpl. unfold Toy.nearest.
    destruct (Toy.knn m q t 1) as [rows|] eqn:E; [|discriminate].
    cbn [Py.bind]. intros Em. injection Em as <-.
    etransitivity; [apply length_flat_map_firstn_1 | exact (Toy_knn_rows _ _ _ _ E)].
  - intros p1 p2 M. simpl. unfold Toy.fit_affine.
    destruct (Toy.consensus p1 p2) as [[dx dy]|]; intros E; inversion E; reflexivity.
  - intros p1 p2 M. simpl. unfold Toy.fit_homography.
    destruct (length p1 <? 4); [discriminate|].
    destruct (Toy.consensus p1 p2) as [[dx dy]|]; intros E; inversion E; reflexivity.
  - intros d g. simpl. unfold Toy.detect.
    destruct (firstn _ _) as [|x l]; simpl; [reflexivity|].
    now rewrite !length_map.
Qed.

(* ================================================================== *)
(** ** Frames without keypoints *)

Section NoKeypoints.

Context {cv : Cv2} {numpy : NumPy} {contract : Cv2Contract cv}.

Lemma raw_matches_no_descriptors (self : VideMosaic) des des_p :
  n_descriptors des = 0 -> raw_matches self des des_p = Ok [].
Proof.
  intros Hn. unfold raw_matches.
  destruct (String.eqb (detector_type self) "sift").
  - now rewrite (knnMatch_no_query (bf self) des des_p 2 Hn).
  - exact (bf_match_no_query (bf self) des des_p Hn).
Qed.

(** C8. A frame on which the detector finds no keypoint gives an empty
    match list, which is the case of fewer than 4 matches: [process_frame]
    returns without raising, prints nothing, and the cumulative pose, the
    canvas and the previous keypoints, descriptors and frame are kept.
    (The program has no test of its own for this: it holds because the
    matcher returns nothing for an empty set of query descriptors.) *)
Theorem process_frame_skips_without_keypoints
    (self : VideMosaic) (frame_cur : Frame) :
  frame_keypoints self frame_cur = [] ->
  frame_matches self frame_cur = Ok [] /\
  snd (process_frame self frame_cur) = ([], Ok tt) /\
  retained self (fst (process_frame self frame_cur)).
Proof.
  intros Hkp.
  assert (Hm : frame_matches self frame_cur = Ok []).
  { unfold frame_matches, match_, frame_descriptors.
    rewrite raw_matches_no_descriptors; [reflexivity|].
    rewrite detect_cardinality. unfold frame_keypoints in Hkp. now rewrite Hkp. }
  split; [exact Hm|].
  rewrite (process_frame_skip_eq self frame_cur Hm) by (cbn [length]; lia).
  cbn [fst snd]. split; [reflexivity|].
  unfold retained. cbn [set_cur H_old output_img kp_prev des_prev frame_prev].
  repeat split.
Qed.

End NoKeypoints.

Lemma process_frame_skips_without_keypoints_witness :
  frame_matches (cv := Toy.cv) Demo.mosaic_A Demo.frame_black = Ok [] /\
  snd (process_frame (cv := Toy.cv) Demo.mosaic_A Demo.frame_black) = ([], Ok tt) /\
  retained Demo.mosaic_A
    (fst (process_frame (cv := Toy.cv) Demo.mosaic_A Demo.frame_black)).
Proof.
  apply (process_frame_skips_without_keypoints (cv := Toy.cv)
           Demo.mosaic_A Demo.frame_black).
  vm_compute. reflexivity.
Defined.

(* ================================================================== *)
(** ** Chaining of the cumulative pose *)

(** [np.matmul] computes the matrix product: entry [(i, j)] is the dot
    product of row [i] of [a] and column [j] of [b]. *)
Lemma matmul_entry (a b c : Matrix) (i j : nat) :
  matmul a b = Ok c -> i < nrows a -> j < ncols b ->
  entry c i j = dot (nth i a []) (column j b).
Proof.
  unfold matmul. destruct (ncols a =? nrows b); [|discriminate].
  intros E Hi Hj. injection E as <-. unfold entry, nrows in *.
  set (f := fun row : list Q => map (fun j0 => dot row (column j0 b)) (seq 0 (ncols b))).
  rewrite (nth_indep _ [] (f [])) by now rewrite length_map.
  rewrite (map_nth f). unfold f.
  set (g := fun j0 => dot (nth i a []) (column j0 b)).
  rewrite (nth_indep _ 0%Q (g 0)) by now rewrite length_map, length_seq.
  rewrite (map_nth g), seq_nth by assumption. reflexivity.
Qed.

Lemma matmul_shape (a b c : Matrix) :
  matmul a b = Ok c -> has_shape c (nrows a) (ncols b) = true.
Proof.
  unfold matmul. destruct (ncols a =? nrows b); [|discriminate].
  intros E. injection E as <-. unfold has_shape, nrows.
  rewrite length_map, Nat.eqb_refl. simpl.
  rewrite forallb_forall. intros row Hin. apply in_map_iff in Hin.
  destruct Hin as [r [<- _]]. rewrite length_map, length_seq. apply Nat.eqb_refl.
Qed.

Section Chaining.

Context {cv : Cv2} {numpy : NumPy}.

(** [warp] changes no attribute but [output_img]. *)
Lemma warp_attributes (self : VideMosaic) (f : Frame) (M : Matrix) :
  H (fst (warp self f M)) = H self /\
  H_old (fst (warp self f M)) = H_old self.
Proof.
  unfold warp. destruct (shape3 (output_img self)) as [[oh ow] k].
  destruct (has_shape M 2 3);
    match goal with |- context [merge ?o ?w] => destruct (merge o w) end;
    split; reflexivity.
Qed.

(** C3. When a frame is processed to the end (at least 4 matches, and
    [process_frame] returns), the new cumulative pose is the matrix
    product [H_old . Hinc] of the previous cumulative pose and the
    transform just estimated by [findHomography], in this order, and it is
    what [H_old] holds for the next frame. *)
Theorem process_frame_chains_pose
    (self : VideMosaic) (frame_cur : Frame) (matches : list DMatch) :
  frame_matches self frame_cur = Ok matches ->
  4 <= length matches ->
  snd (snd (process_frame self frame_cur)) = Ok tt ->
  exists Hinc : Matrix,
    snd (findHomography (frame_keypoints self frame_cur) (kp_prev self) matches)
      = Ok Hinc /\
    matmul (H_old self) Hinc = Ok (H_old (fst (process_frame self frame_cur))) /\
    H (fst (process_frame self frame_cur))
      = Some (H_old (fst (process_frame self frame_cur))) /\
    forall i j, i < nrows (H_old self) -> j < ncols Hinc ->
      entry (H_old (fst (process_frame self frame_cur))) i j
        = dot (nth i (H_old self) []) (column j Hinc).
Proof.
  intros Hm Hlen. rewrite process_frame_unfold. cbv zeta. rewrite Hm.
  apply Nat.ltb_ge in Hlen. rewrite Hlen.
  destruct (findHomography (frame_keypoints self frame_cur) (kp_prev self) matches)
    as [log1 [Hinc|e]]; [|discriminate].
  destruct (matmul (H_old self) Hinc) as [Hnew|e] eqn:Emul; [|discriminate].
  pose proof (warp_attributes
                (set_H (set_H (set_cur self frame_cur (frame_keypoints self frame_cur)
                                 (frame_descriptors self frame_cur)) Hinc) Hnew)
                frame_cur Hnew) as [HH _].
  destruct (warp _ frame_cur Hnew) as [self4 [log2 [out|e]]]; [|discriminate].
  intros _. exists Hinc. cbn [fst snd H_old H roll_over] in *.
  repeat split; try assumption.
  intros i j Hi Hj. now apply matmul_entry.
Qed.

End Chaining.

Lemma process_frame_chains_pose_witness :
  exists Hinc : Matrix,
    snd (findHomography (cv := Toy.cv)
           (frame_keypoints (cv := Toy.cv) Demo.mosaic_A Demo.frame_B)
           (kp_prev Demo.mosaic_A)
           (match frame_matches (cv := Toy.cv) Demo.mosaic_A Demo.frame_B with
            | Ok ms => ms | Raise _ => [] end)) = Ok Hinc /\
    matmul (H_old Demo.mosaic_A) Hinc
      = Ok (H_old (fst (process_frame (cv := Toy.cv) Demo.mosaic_A Demo.frame_B))) /\
    H_old (fst (process_frame (cv := Toy.cv) Demo.mosaic_A Demo.frame_B))
      = [[1; 0; -1]; [0; 1; 4]; [0; 0; 1]]%Q.
Proof.
  destruct (process_frame_chains_pose (cv := Toy.cv) Demo.mosaic_A Demo.frame_B
              (matches := match frame_matches (cv := Toy.cv) Demo.mosaic_A Demo.frame_B with
                          | Ok ms => ms | Raise _ => [] end))
    as [Hinc [E1 [E2 _]]].
  - vm_compute. reflexivity.
  - vm_compute. lia.
  - vm_compute. reflexivity.
  - exists Hinc. split; [exact E1|]. split; [exact E2|]. vm_compute. reflexivity.
Defined.

(* ================================================================== *)
(** ** [match]: sorting and truncation *)

Lemma insert_by_distance_perm (x : DMatch) (l : list DMatch) :
  Permutation (x :: l) (insert_by_distance x l).
Proof.
  induction l as [|y l IH]; simpl; [reflexivity|].
  destruct (Qle_bool (distance x) (distance y)); [reflexivity|].
  rewrite perm_swap. now apply perm_skip.
Qed.

Lemma sorted_by_distance_perm (l : list DMatch) :
  Permutation l (sorted_by_distance l).
Proof.
  induction l as [|x l IH]; simpl; [reflexivity|].
  rewrite <- insert_by_distance_perm. now apply perm_skip.
Qed.

Lemma insert_by_distance_sorted (x : DMatch) (l : list DMatch) :
  StronglySorted by_distance l -> StronglySorted by_distance (insert_by_distance x l).
Proof.
  induction 1 as [|y l Hs IH Hall]; simpl.
  - repeat constructor.
  - destruct (Qle_bool (distance x) (distance y)) eqn:E.
    + apply Qle_bool_iff in E. constructor; [now constructor|].
      constructor; [exact E|].
      eapply Forall_impl; [|exact Hall].
      intros b Hb. unfold by_distance in *. now apply Qle_trans with (distance y).
    + assert (Hyx : by_distance y x).
      { unfold by_distance. apply Qlt_le_weak, Qnot_le_lt.
        intros Hle. apply Qle_bool_iff in Hle. congruence. }
      constructor; [exact IH|].
      apply (Permutation_Forall (insert_by_distance_perm x l)).
      now constructor.
Qed.

Lemma sorted_by_distance_sorted (l : list DMatch) :
  StronglySorted by_distance (sorted_by_distance l).
Proof.
  induction l as [|x l IH]; simpl; [constructor|].
  now apply insert_by_distance_sorted.
Qed.

Lemma StronglySorted_app_inv {A} (R : A -> A -> Prop) (l1 l2 : list A) :
  StronglySorted R (l1 ++ l2) ->
  StronglySorted R l1 /\ Forall (fun a => Forall (R a) l2) l1.
Proof.
  induction l1 as [|a l1 IH]; simpl; intros Hs.
  - split; constructor.
  - inversion Hs as [|? ? Hs' Hall]; subst.
    destruct (IH Hs') as [H1 H2]. apply Forall_app in Hall as [Ha1 Ha2].
    split; constructor; assumption.
Qed.

(** C4. [match] returns the raw match list sorted by ascending distance
    and cut to its first 30 entries: the result is sorted, has
    [min 30 (length raw)] entries, and when the raw list has more than 30
    entries the result is 30 of them, none farther than any entry that was
    dropped. *)
Theorem match_keeps_the_30_best
    {cv : Cv2} (self : VideMosaic) (des_cur des_prev : option Descriptors)
    (matches : list DMatch) :
  match_ self des_cur des_prev = Ok matches ->
  exists raw dropped : list DMatch,
    raw_matches self des_cur des_prev = Ok raw /\
    matches = firstn 30 (sorted_by_distance raw) /\
    StronglySorted by_distance matches /\
    length matches = Nat.min 30 (length raw) /\
    (30 < length raw -> length matches = 30) /\
    Permutation raw (matches ++ dropped) /\
    Forall (fun kept => Forall (by_distance kept) dropped) matches.
Proof.
  unfold match_. destruct (raw_matches self des_cur des_prev) as [raw|e]; [|discriminate].
  cbn [Py.bind]. unfold match_count_cap. intros E.
  assert (Em : matches = firstn 30 (sorted_by_distance raw)) by congruence.
  clear E. exists raw, (skipn 30 (sorted_by_distance raw)).
  pose proof (sorted_by_distance_sorted raw) as Hs.
  rewrite <- (firstn_skipn 30 (sorted_by_distance raw)) in Hs.
  apply StronglySorted_app_inv in Hs as [Hs1 Hs2].
  assert (Hlen : length (sorted_by_distance raw) = length raw)
    by (symmetry; apply Permutation_length, sorted_by_distance_perm).
  rewrite <- Em in Hs1, Hs2.
  assert (Hl : length matches = Nat.min 30 (length raw))
    by now rewrite Em, length_firstn, Hlen.
  split; [reflexivity|]. split; [exact Em|]. split; [exact Hs1|].
  split; [exact Hl|]. split; [lia|]. split; [|exact Hs2].
  rewrite Em, firstn_skipn. apply sorted_by_distance_perm.
Qed.

Lemma match_keeps_the_30_best_witness :
  length matches_32 = 30 /\
  exists raw dropped : list DMatch,
    raw_matches (cv := Toy.cv) orb_mosaic descriptors_32 (Some [[0%Q]]) = Ok raw /\
    length raw = 32 /\
    matches_32 = firstn 30 (sorted_by_distance raw) /\
    StronglySorted by_distance matches_32 /\
    Permutation raw (matches_32 ++ dropped) /\
    Forall (fun kept => Forall (by_distance kept) dropped) matches_32.
Proof.
  split; [reflexivity|].
  destruct (match_keeps_the_30_best (cv := Toy.cv) orb_mosaic descriptors_32
              (Some [[0%Q]]) (matches := matches_32))
    as [raw [dropped [E1 [E2 [E3 [E4 [E5 [E6 E7]]]]]]]].
  - vm_compute. reflexivity.
  - exists raw, dropped. repeat split; try assumption.
    vm_compute in E1. injection E1 as <-. reflexivity.
Defined.

(* ================================================================== *)
(** ** [findHomography]: classification and the 3x3 result *)






Lemma has_shape_vstack (M : Matrix) (row : list Q) :
  has_shape M 2 3 = true -> length row = 3 ->
  has_shape (vstack M row) 3 3 = true /\ nth 2 (vstack M row) [] = row.
Proof.
  unfold has_shape, vstack. intros Hs Hr.
  apply andb_true_iff in Hs as [Hl Hf]. apply Nat.eqb_eq in Hl.
  destruct M as [|r1 [|r2 [|r3 M]]]; try discriminate.
  simpl in *. rewrite Hr. simpl. rewrite andb_true_r in *. now split.
Qed.

Lemma convert_to_3x3_shape (M T : Matrix) :
  has_shape M 2 3 = true \/ has_shape M 3 3 = true ->
  convert_to_3x3 (Some M) = Ok T -> has_shape T 3 3 = true.
Proof.
  unfold convert_to_3x3. intros [H23 | H33].
  - rewrite H23. intros E. injection E as <-.
    now destruct (has_shape_vstack M [0; 0; 1]%Q H23 eq_refl).
  - assert (H23 : has_shape M 2 3 = false).
    { unfold has_shape in *. apply andb_true_iff in H33 as [Hl _].
      apply Nat.eqb_eq in Hl. rewrite Hl. reflexivity. }
    rewrite H23. intros E. now injection E as <-.
Qed.

Section Estimator.

Context {cv : Cv2} {numpy : NumPy}.

Lemma estimate_points (kp1 kp2 : list KeyPoint) (matches : list DMatch) p1 p2 :
  points_at kp1 (map queryIdx matches) = Ok p1 ->
  points_at kp2 (map trainIdx matches) = Ok p2 ->
  estimate kp1 kp2 matches =
  let d := sub_points (np_float32 p2) (np_float32 p1) in
  fit_for (dominant_motion (Np.mean (map fst d)) (Np.mean (map snd d)))
          (np_float32 p1) (np_float32 p2).
Proof. intros E1 E2. unfold estimate. rewrite E1, E2. reflexivity. Qed.

Lemma estimate_inv (kp1 kp2 : list KeyPoint) (matches : list DMatch) fit :
  snd (estimate kp1 kp2 matches) = Ok fit ->
  exists p1 p2 m,
    estimate kp1 kp2 matches = fit_for m p1 p2.
Proof.
  unfold estimate.
  destruct (points_at kp1 _) as [p1|]; [|discriminate].
  destruct (points_at kp2 _) as [p2|]; [|discriminate].
  cbv zeta. destruct (mean_displacement _) as [dx dy]. intros _.
  now exists (np_float32 p1), (np_float32 p2), (dominant_motion dx dy).
Qed.


(** The comparison is strict and on absolute values; a mean that is NaN
    (the mean of no displacement) is complex motion. *)
Example dominant_motion_boundaries :
  dominant_motion (F32.of_Z 15) (F32.of_Z 10) = Complex /\
  dominant_motion (F32.of_Z (-10)) (F32.of_Z 5) = Horizontal /\
  dominant_motion (F32.of_Z 5) (F32.of_Z (-10)) = Vertical /\
  dominant_motion (F32.of_Z 0) (F32.of_Z 0) = Complex /\
  mean_displacement [] = (S754_nan, S754_nan) /\
  dominant_motion S754_nan S754_nan = Complex.
Proof.
  unfold dominant_motion, gt_times_1_5.
  destruct weak_python_floats; repeat split; vm_compute; reflexivity.
Qed.


(** A returned transform comes from a fit that found one. *)
Lemma findHomography_ok_cases (kp1 kp2 : list KeyPoint) (matches : list DMatch)
    (T : Matrix) :
  snd (findHomography kp1 kp2 matches) = Ok T ->
  exists p1 p2 m M,
    fst (findHomography kp1 kp2 matches) = fst (fit_for m p1 p2) /\
    snd (fit_for m p1 p2) = Ok (Some M) /\
    convert_to_3x3 (Some M) = Ok T.
Proof.
  unfold findHomography.
  destruct (estimate kp1 kp2 matches) as [log fit] eqn:Ee. cbn [fst snd].
  destruct fit as [[M|]|e]; cbn [Py.bind]; try discriminate.
  destruct (estimate_inv kp1 kp2 matches (fit := Some M)) as [p1 [p2 [m Em]]];
    [now rewrite Ee|].
  rewrite Ee in Em. intros E. exists p1, p2, m, M. rewrite <- Em. now split.
Qed.

Context {contract : Cv2Contract cv}.

Lemma findHomography_shape (kp1 kp2 : list KeyPoint) (matches : list DMatch)
    (T : Matrix) :
  snd (findHomography kp1 kp2 matches) = Ok T -> has_shape T 3 3 = true.
Proof.
  intros E. destruct (findHomography_ok_cases kp1 kp2 matches E)
    as [p1 [p2 [m [M [_ [Efit Ec]]]]]].
  apply (convert_to_3x3_shape M); [|exact Ec].
  destruct m; cbn [fit_for snd] in Efit.
  - left. exact (affine_shape _ _ Efit).
  - left. exact (affine_shape _ _ Efit).
  - right. exact (homography_shape _ _ Efit).
Qed.

(** C5. A transform returned by [findHomography] is a 3x3 matrix.  On the
    affine path (horizontal or vertical motion) it is the 2x3 fit with the
    row [[0, 0, 1]] appended, so that this is its bottom row; on the
    projective path (complex motion) it is the 3x3 fit itself. *)
Theorem findHomography_returns_3x3
    (kp1 kp2 : list KeyPoint) (matches : list DMatch) (T : Matrix) :
  snd (findHomography kp1 kp2 matches) = Ok T ->
  has_shape T 3 3 = true /\
  ((exists p1 p2 M msg,
      fst (findHomography kp1 kp2 matches)
        = [Printed msg; Called_estimateAffine2D p1 p2] /\
      estimateAffine2D_RANSAC p1 p2 = Ok (Some M) /\
      has_shape M 2 3 = true /\
      T = vstack M [0; 0; 1]%Q /\
      nth 2 T [] = [0; 0; 1]%Q)
   \/
   (exists p1 p2 msg,
      fst (findHomography kp1 kp2 matches)
        = [Printed msg; Called_findHomography p1 p2] /\
      findHomography_RANSAC p1 p2 = Ok (Some T))).
Proof.
  intros E. destruct (findHomography_ok_cases kp1 kp2 matches E)
    as [p1 [p2 [m [M [Elog [Efit Ec]]]]]].
  assert (Haffine : estimateAffine2D_RANSAC p1 p2 = Ok (Some M) ->
            has_shape M 2 3 = true /\ T = vstack M [0; 0; 1]%Q /\
            has_shape T 3 3 = true /\ nth 2 T [] = [0; 0; 1]%Q).
  { intros Ea. pose proof (affine_shape _ _ Ea) as Hs.
    cbn [convert_to_3x3] in Ec. rewrite Hs in Ec. injection Ec as <-.
    destruct (has_shape_vstack M [0; 0; 1]%Q Hs eq_refl) as [H33 Hrow].
    repeat split; assumption. }
  destruct m; cbn [fit_for fst snd] in Elog, Efit.
  - destruct (Haffine Efit) as [Hs [ET [H33 Hrow]]]. split; [exact H33|].
    left. exists p1, p2, M. eexists. repeat split; eassumption.
  - destruct (Haffine Efit) as [Hs [ET [H33 Hrow]]]. split; [exact H33|].
    left. exists p1, p2, M. eexists. repeat split; eassumption.
  - pose proof (homography_shape _ _ Efit) as Hs.
    assert (H23 : has_shape M 2 3 = false).
    { unfold has_shape in *. apply andb_true_iff in Hs as [Hl _].
      apply Nat.eqb_eq in Hl. rewrite Hl. reflexivity. }
    cbn [convert_to_3x3] in Ec. rewrite H23 in Ec. injection Ec as <-.
    split; [exact Hs|]. right. exists p1, p2. eexists. split; eassumption.
Qed.

End Estimator.


(** Keypoints that all moved by (10, 5), and by (10, 7): the affine fit
    for the first, the projective fit for the second. *)
Example findHomography_10_5_is_affine :
  mean_displacement (sub_points (np_float32 (map pt prev_10_5)) (np_float32 (map pt cur4)))
    = (F32.of_Z 10, F32.of_Z 5) /\
  findHomography (cv := Toy.cv) cur4 prev_10_5 matches4 =
    ([Printed "Detected Horizontal Motion";
      Called_estimateAffine2D (np_float32 (map pt cur4)) (np_float32 (map pt prev_10_5))],
     Ok [[1; 0; 10]; [0; 1; 5]; [0; 0; 1]]%Q).
Proof. split; vm_compute; reflexivity. Qed.

Example findHomography_10_7_is_projective :
  mean_displacement (sub_points (np_float32 (map pt prev_10_7)) (np_float32 (map pt cur4)))
    = (F32.of_Z 10, F32.of_Z 7) /\
  findHomography (cv := Toy.cv) cur4 prev_10_7 matches4 =
    ([Printed "Detected Diagonal/Complex Motion";
      Called_findHomography (np_float32 (map pt cur4)) (np_float32 (map pt prev_10_7))],
     Ok [[1; 0; 10]; [0; 1; 7]; [0; 0; 1]]%Q).
Proof. split; vm_compute; reflexivity. Qed.

(** The displacements are rounded to [float32]: from [x = 1 - 2^-24] to
    [x = 4] the displacement is 3, not [3 + 2^-24], and with [dy = 2] the
    motion is complex, with either version of NumPy. *)
Example findHomography_rounds_the_displacements :
  (2 * (15 # 10) < 4 - (16777215 # 16777216))%Q /\
  F32.sub (F32.of_Q 4) (F32.of_Q (16777215 # 16777216)) = F32.of_Z 3 /\
  forall numpy : NumPy,
    findHomography (cv := Toy.cv) (numpy := numpy) cur_below_1 prev_4_2 matches4 =
      ([Printed "Detected Diagonal/Complex Motion";
        Called_findHomography (np_float32 (map pt cur_below_1))
                              (np_float32 (map pt prev_4_2))],
       Ok [[1; 0; 3]; [0; 1; 2]; [0; 0; 1]]%Q).
Proof.
  split; [reflexivity|]. split; [vm_compute; reflexivity|].
  intros [[|]]; vm_compute; reflexivity.
Qed.

(** The product [|dy| * 1.5] is rounded to [float32] by NumPy 2 and exact
    before: for [dx = 1.5 + 2^-22] and [dy = 1 + 2^-23] the two versions
    classify differently. *)
Example dominant_motion_depends_on_numpy :
  dominant_motion (numpy := {| weak_python_floats := false |})
    (F32.of_Q (6291457 # 4194304)) (F32.of_Q (8388609 # 8388608)) = Horizontal /\
  dominant_motion (numpy := {| weak_python_floats := true |})
    (F32.of_Q (6291457 # 4194304)) (F32.of_Q (8388609 # 8388608)) = Complex.
Proof. split; vm_compute; reflexivity. Qed.

Lemma findHomography_returns_3x3_witness :
  snd (findHomography (cv := Toy.cv) cur4 prev_10_5 matches4)
    = Ok [[1; 0; 10]; [0; 1; 5]; [0; 0; 1]]%Q /\
  has_shape [[1; 0; 10]; [0; 1; 5]; [0; 0; 1]]%Q 3 3 = true /\
  snd (findHomography (cv := Toy.cv) cur4 prev_10_7 matches4)
    = Ok [[1; 0; 10]; [0; 1; 7]; [0; 0; 1]]%Q.
Proof.
  split; [reflexivity|]. split; [|reflexivity].
  apply (findHomography_returns_3x3 (cv := Toy.cv) cur4 prev_10_5 matches4
           (T := [[1; 0; 10]; [0; 1; 5]; [0; 0; 1]]%Q)).
  reflexivity.
Defined.

(* ================================================================== *)
(** ** The transform handed to [warp] *)

Lemma has_shape_dims (M : Matrix) (r c : nat) :
  has_shape M (S r) c = true -> nrows M = S r /\ ncols M = c.
Proof.
  unfold has_shape, nrows, ncols. intros Hs.
  apply andb_true_iff in Hs as [Hl Hf]. apply Nat.eqb_eq in Hl.
  destruct M as [|row M]; [discriminate|].
  simpl in Hf. apply andb_true_iff in Hf as [Hrow _].
  apply Nat.eqb_eq in Hrow. now split.
Qed.

(** The pose [__init__] builds from [np.eye(3)]. *)
Lemma init_pose (a b : Q) :
  (H0 <- setitem (eye 3) 0 2 a ;; setitem H0 1 2 b)
  = Ok [[1; 0; a]; [0; 1; b]; [0; 0; 1]]%Q.
Proof. reflexivity. Qed.

Section WarpDispatch.

Context {cv : Cv2} {numpy : NumPy} {contract : Cv2Contract cv}.

Lemma init_H_old first_image hm wm dt vm :
  VideMosaic_init first_image hm wm dt = Ok vm ->
  H_old vm = [[1; 0; inject_Z (h_offset vm)]; [0; 1; inject_Z (w_offset vm)]; [0; 0; 1]]%Q.
Proof.
  unfold VideMosaic_init.
  destruct (new_detector dt) as [[det matcher]|]; [|discriminate].
  destruct (process_first_frame det first_image) as [[f_prev kp] des].
  destruct (shape3 first_image) as [[h w] k].
  destruct (Py.int_times hm _) as [rows|]; [|discriminate]. cbn [Py.bind].
  destruct (Py.int_times wm _) as [cols|]; [|discriminate]. cbn [Py.bind].
  destruct (zeros_of _ _ k) as [out0|]; [|discriminate]. cbn [Py.bind].
  destruct (shape3 out0) as [[oh ow] k']. cbv zeta.
  generalize (Py.int (Q_of_nat oh / 1 - Q_of_nat h / 1)%Q); intros w_off.
  generalize (Py.int (Q_of_nat ow / 2 - Q_of_nat w / 2)%Q); intros h_off.
  destruct (setitem_slice _ _ _ _ _ _) as [out|]; [|discriminate].
  cbn -[inject_Z]. intros E. injection E as <-. reflexivity.
Qed.

Lemma findHomography_log_ok vm' kp1 kp2 matches :
  Forall (warp_event_ok vm') (fst (findHomography kp1 kp2 matches)).
Proof.
  unfold findHomography, estimate.
  destruct (points_at kp1 _); [|constructor].
  destruct (points_at kp2 _); [|constructor].
  destruct (mean_displacement _) as [dx dy].
  destruct (dominant_motion dx dy); simpl; repeat constructor.
Qed.

Lemma warp_log_ok (self : VideMosaic) (f : Frame) (M : Matrix) :
  has_shape M 3 3 = true -> H self = Some M ->
  Forall (warp_event_ok (fst (warp self f M))) (fst (snd (warp self f M))).
Proof.
  intros Hs HH. pose proof (warp_attributes self f M) as [HH' _].
  revert HH'. unfold warp. destruct (shape3 (output_img self)) as [[oh ow] k].
  assert (H23 : has_shape M 2 3 = false).
  { destruct (@has_shape_dims M 2 3 Hs) as [Hr _]. unfold has_shape, nrows in *.
    rewrite Hr. reflexivity. }
  rewrite H23.
  destruct (merge _ _); cbn [fst snd]; intros HH'; repeat constructor;
    try assumption; congruence.
Qed.

Lemma warp_event_ok_same_H vm1 vm2 ev :
  H vm1 = H vm2 -> warp_event_ok vm1 ev -> warp_event_ok vm2 ev.
Proof. intros E. destruct ev; simpl; try tauto. now rewrite E. Qed.

Lemma process_frame_3x3 (vm : VideMosaic) (frame_cur : Frame) :
  has_shape (H_old vm) 3 3 = true ->
  has_shape (H_old (fst (process_frame vm frame_cur))) 3 3 = true /\
  Forall (warp_event_ok (fst (process_frame vm frame_cur)))
         (fst (snd (process_frame vm frame_cur))).
Proof.
  intros Hinv. rewrite process_frame_unfold. cbv zeta.
  destruct (frame_matches vm frame_cur) as [matches|e];
    [|split; [exact Hinv | constructor]].
  destruct (length matches <? 4); [split; [exact Hinv | constructor]|].
  set (kp := frame_keypoints vm frame_cur).
  set (des := frame_descriptors vm frame_cur).
  pose proof (findHomography_shape kp (kp_prev vm) matches) as Hfit.
  destruct (findHomography kp (kp_prev vm) matches) as [log1 [Hinc|e]] eqn:Efh.
  2: { split; [exact Hinv|]. cbn [fst snd].
       pose proof (findHomography_log_ok (set_cur vm frame_cur kp des)
                     kp (kp_prev vm) matches) as Hl.
       now rewrite Efh in Hl. }
  pose proof (Hfit Hinc eq_refl) as Hs.
  destruct (matmul (H_old vm) Hinc) as [Hnew|e] eqn:Emul.
  2: { split; [exact Hinv|]. cbn [fst snd].
       pose proof (findHomography_log_ok (set_H (set_cur vm frame_cur kp des) Hinc)
                     kp (kp_prev vm) matches) as Hl.
       now rewrite Efh in Hl. }
  pose proof (@matmul_shape _ _ _ Emul) as Hn.
  destruct (@has_shape_dims _ 2 3 Hinv) as [Hr _].
  destruct (@has_shape_dims _ 2 3 Hs) as [_ Hc]. rewrite Hr, Hc in Hn.
  set (self3 := set_H (set_H (set_cur vm frame_cur kp des) Hinc) Hnew).
  pose proof (@warp_log_ok self3 frame_cur Hnew Hn eq_refl) as Hw.
  pose proof (warp_attributes self3 frame_cur Hnew) as [HH HHold].
  pose proof (findHomography_log_ok self3 kp (kp_prev vm) matches) as Hl.
  rewrite Efh in Hl. cbn [fst] in Hl.
  destruct (warp self3 frame_cur Hnew) as [self4 [log2 [out|e]]];
    cbn [fst snd] in *.
  - split; [exact Hn|]. apply Forall_app. split.
    + eapply Forall_impl; [|exact Hl]. intros ev.
      apply warp_event_ok_same_H. cbn [roll_over H]. now rewrite HH.
    + eapply Forall_impl; [|exact Hw]. intros ev.
      apply warp_event_ok_same_H. reflexivity.
  - split; [now rewrite HHold|]. apply Forall_app. split; [|exact Hw].
    eapply Forall_impl; [|exact Hl]. intros ev.
    apply warp_event_ok_same_H. now rewrite HH.
Qed.

Lemma reachable_3x3 (vm : VideMosaic) :
  reachable vm -> has_shape (H_old vm) 3 3 = true.
Proof.
  induction 1 as [first_image hm wm dt vm Hinit | vm frame_cur Hr IH].
  - rewrite (@init_H_old _ _ _ _ _ Hinit). reflexivity.
  - now apply process_frame_3x3.
Qed.

(** C10. In every object a run can hold, the cumulative pose is a 3x3
    matrix, and a call of [process_frame] never reaches [warpAffine]: when
    it resamples the frame it calls [warpPerspective], on the 3x3 chained
    pose it has just stored in [H].  The branch of [warp] for a 2x3
    transform is never taken. *)
Theorem warp_is_always_perspective (vm : VideMosaic) (frame_cur : Frame) :
  reachable vm ->
  has_shape (H_old vm) 3 3 = true /\
  forall ev, In ev (fst (snd (process_frame vm frame_cur))) ->
    (forall M dsize, ev <> Called_warpAffine M dsize) /\
    (forall M dsize, ev = Called_warpPerspective M dsize ->
       has_shape M 3 3 = true /\
       H (fst (process_frame vm frame_cur)) = Some M).
Proof.
  intros Hr. pose proof (@reachable_3x3 vm Hr) as Hinv. split; [exact Hinv|].
  destruct (process_frame_3x3 vm frame_cur Hinv) as [_ Hlog].
  rewrite Forall_forall in Hlog. intros ev Hin. specialize (Hlog ev Hin).
  split.
  - intros M dsize ->. exact Hlog.
  - intros M dsize ->. exact Hlog.
Qed.

End WarpDispatch.

Lemma warp_is_always_perspective_witness :
  fst (snd (process_frame (cv := Toy.cv) Demo.mosaic_A Demo.frame_B)) =
    [Printed "Detected Horizontal Motion";
     Called_estimateAffine2D (np_float32 [(1, 0); (3, 0); (2, 1); (4, 1)]%Q)
                             (np_float32 [(0, 0); (2, 0); (1, 1); (3, 1)]%Q);
     Called_warpPerspective [[1; 0; -1]; [0; 1; 4]; [0; 0; 1]]%Q (6, 6)] /\
  has_shape (H_old Demo.mosaic_A) 3 3 = true /\
  forall ev,
    In ev (fst (snd (process_frame (cv := Toy.cv) Demo.mosaic_A Demo.frame_B))) ->
    (forall M dsize, ev <> Called_warpAffine M dsize) /\
    (forall M dsize, ev = Called_warpPerspective M dsize ->
       has_shape M 3 3 = true /\
       H (fst (process_frame (cv := Toy.cv) Demo.mosaic_A Demo.frame_B)) = Some M).
Proof.
  split; [vm_compute; reflexivity|].
  apply (warp_is_always_perspective (cv := Toy.cv) (vm := Demo.mosaic_A) Demo.frame_B).
  apply (reach_init (cv := Toy.cv) Demo.frame_A
           height_times_default width_times_default "sift").
  vm_compute. reflexivity.
Defined.

(* ================================================================== *)
(** ** [__init__]: the canvas, the offsets and the initial pose *)

(** [int] does not depend on how the rational is written. *)
Lemma int_Qeq (q q' : Q) : (q == q')%Q -> Py.int q = Py.int q'.
Proof.
  unfold Qeq, Py.int. destruct q as [n d], q' as [n' d']. simpl. intros E.
  rewrite <- (Z.quot_mul_cancel_r n (Zpos d) (Zpos d')) by lia.
  rewrite E, (Z.mul_comm (Zpos d) (Zpos d')).
  apply Z.quot_mul_cancel_r; lia.
Qed.

Lemma int_inject_Z (z : Z) : Py.int (inject_Z z) = z.
Proof. unfold Py.int, inject_Z. simpl. apply Z.quot_1_r. Qed.

(** [int(H / 1 - h / 1)] is [H - h]. *)
Lemma int_difference (a b : nat) :
  Py.int (Q_of_nat a / 1 - Q_of_nat b / 1)%Q = (Z.of_nat a - Z.of_nat b)%Z.
Proof.
  rewrite <- (int_inject_Z (Z.of_nat a - Z.of_nat b)). apply int_Qeq.
  unfold Q_of_nat, Z.sub. rewrite inject_Z_plus, inject_Z_opp. field.
Qed.

(** [int(W / 2 - w / 2)] is [(W - w)] divided by 2, rounded toward zero. *)
Lemma int_half_difference (a b : nat) :
  Py.int (Q_of_nat a / 2 - Q_of_nat b / 2)%Q = Z.quot (Z.of_nat a - Z.of_nat b) 2.
Proof.
  change (Z.quot (Z.of_nat a - Z.of_nat b) 2)
    with (Py.int ((Z.of_nat a - Z.of_nat b) # 2)).
  apply int_Qeq. unfold Q_of_nat.
  rewrite (Qmake_Qdiv (Z.of_nat a - Z.of_nat b) 2). unfold Z.sub.
  rewrite inject_Z_plus, inject_Z_opp. field.
Qed.

Lemma shape3_tabulate3 {A} (R C K : nat) (f : nat -> nat -> nat -> A) :
  0 < R -> 0 < C -> shape3 (tabulate3 R C K f) = (R, C, K).
Proof.
  intros HR HC. unfold shape3, tabulate3.
  destruct R as [|R]; [lia|]. destruct C as [|C]; [lia|].
  rewrite length_map, length_seq. cbn [seq map hd length].
  rewrite !length_map, !length_seq. reflexivity.
Qed.

Lemma nth_tabulate {A} (d : A) (n i : nat) (f : nat -> A) :
  i < n -> nth i (map f (seq 0 n)) d = f i.
Proof.
  intros Hi. rewrite (nth_indep _ d (f 0)) by now rewrite length_map, length_seq.
  now rewrite (map_nth f), seq_nth.
Qed.

Lemma get3_tabulate3 {A} (d : A) (R C K : nat) (f : nat -> nat -> nat -> A) r c k :
  r < R -> c < C -> k < K -> get3 d (tabulate3 R C K f) r c k = f r c k.
Proof.
  intros Hr Hc Hk. unfold get3, tabulate3.
  rewrite (nth_tabulate [] (fun r => map (fun c => map (fun k => f r c k) (seq 0 K))
                                         (seq 0 C)) Hr).
  rewrite (nth_tabulate [] (fun c => map (fun k => f r c k) (seq 0 K)) Hc).
  now rewrite (nth_tabulate d (fun k => f r c k) Hk).
Qed.

Lemma bidx_in_range (extent i : nat) : i < extent -> bidx extent i = i.
Proof.
  unfold bidx. intros Hi. destruct (extent =? 1) eqn:E; [|reflexivity].
  apply Nat.eqb_eq in E. lia.
Qed.

Lemma slice_bound_inside (i len : Z) :
  (0 <= i <= len)%Z -> Py.slice_bound i len = i.
Proof.
  intros Hi. unfold Py.slice_bound.
  destruct (i <? 0)%Z eqn:E; [apply Z.ltb_lt in E; lia | lia].
Qed.

(** A slice that lies inside the canvas and has the extents of the frame. *)
Lemma setitem_slice_inside (a : Canvas) (v : Frame) (R C K h w r0 c0 : nat) :
  shape3 a = (R, C, K) -> shape3 v = (h, w, K) ->
  r0 + h <= R -> c0 + w <= C ->
  setitem_slice a (Z.of_nat r0) (Z.of_nat r0 + Z.of_nat h)
                  (Z.of_nat c0) (Z.of_nat c0 + Z.of_nat w) v
  = Ok (tabulate3 R C K (fun r c ch =>
          if in_window r0 h r && in_window c0 w c
          then to_float (get3 0%N v (bidx h (r - r0)) (bidx w (c - c0)) (bidx K ch))
          else get3 0%Q a r c ch)).
Proof.
  intros Ha Hv Hr Hc. unfold setitem_slice, Py.slice_indices. rewrite Ha, Hv.
  rewrite !slice_bound_inside by lia.
  replace (Z.to_nat (Z.of_nat r0 + Z.of_nat h - Z.of_nat r0)) with h by lia.
  replace (Z.to_nat (Z.of_nat c0 + Z.of_nat w - Z.of_nat c0)) with w by lia.
  rewrite !Nat2Z.id. unfold broadcastable. rewrite !Nat.eqb_refl. reflexivity.
Qed.

Section Init.

Context {cv : Cv2} {numpy : NumPy}.

Lemma init_spec (first_image : Frame) (hm wm : Py.number) (dt : string)
    (h w k ch cw : nat) (det : Detector) (matcher : Matcher) :
  shape3 first_image = (h, w, k) -> 0 < h -> 0 < w ->
  Py.int_times hm (Z.of_nat h) = Ok (Z.of_nat ch) ->
  Py.int_times wm (Z.of_nat w) = Ok (Z.of_nat cw) ->
  h <= ch -> w <= cw ->
  new_detector dt = Some (det, matcher) ->
  exists vm,
    VideMosaic_init first_image hm wm dt = Ok vm /\
    shape3 (output_img vm) = (ch, cw, k) /\
    w_offset vm = (Z.of_nat ch - Z.of_nat h)%Z /\
    h_offset vm = ((Z.of_nat cw - Z.of_nat w) / 2)%Z /\
    (forall r c j, r < ch -> c < cw -> j < k ->
       get3 0%Q (output_img vm) r c j =
       if in_window (ch - h) h r && in_window ((cw - w) / 2) w c
       then to_float (get3 0%N first_image (r - (ch - h)) (c - (cw - w) / 2) j)
       else 0%Q) /\
    H_old vm = [[1; 0; inject_Z (h_offset vm)];
                [0; 1; inject_Z (w_offset vm)];
                [0; 0; 1]]%Q.
Proof.
  intros Hshape Hh Hw Ech Ecw Hch Hcw Hdet.
  assert (Ez : zeros_of (Z.of_nat ch) (Z.of_nat cw) k = Ok (zeros ch cw k)).
  { unfold zeros_of.
    destruct (Z.of_nat ch <? 0)%Z eqn:E1; [apply Z.ltb_lt in E1; lia|].
    destruct (Z.of_nat cw <? 0)%Z eqn:E2; [apply Z.ltb_lt in E2; lia|].
    cbn [orb]. now rewrite !Nat2Z.id. }
  assert (Es : shape3 (zeros ch cw k) = (ch, cw, k))
    by (apply shape3_tabulate3; lia).
  assert (Ewo : Py.int (Q_of_nat ch / 1 - Q_of_nat h / 1)%Q = Z.of_nat (ch - h))
    by (rewrite int_difference; lia).
  assert (Eho : Py.int (Q_of_nat cw / 2 - Q_of_nat w / 2)%Q = Z.of_nat ((cw - w) / 2)).
  { rewrite int_half_difference, Z.quot_div_nonneg by lia.
    rewrite Nat2Z.inj_div, Nat2Z.inj_sub by lia. reflexivity. }
  assert (Hhalf : (cw - w) / 2 + w <= cw).
  { pose proof (Nat.Div0.div_le_upper_bound (cw - w) 2 (cw - w)). lia. }
  unfold VideMosaic_init. rewrite Hdet.
  destruct (process_first_frame det first_image) as [[f_prev kp] des].
  rewrite Hshape, Ech, Ecw. cbn [Py.bind]. rewrite Ez. cbn [Py.bind].
  rewrite Es. cbv zeta. rewrite Ewo, Eho.
  rewrite (@setitem_slice_inside (zeros ch cw k) first_image ch cw k h w
             (ch - h) ((cw - w) / 2) Es Hshape) by lia.
  cbn [Py.bind].
  eexists. split; [cbn -[inject_Z tabulate3 Z.of_nat Nat.div]; reflexivity|].
  cbn [output_img w_offset h_offset H_old].
  repeat split.
  - apply shape3_tabulate3; lia.
  - lia.
  - rewrite Nat2Z.inj_div, Nat2Z.inj_sub by lia. reflexivity.
  - intros r c j Hr Hc Hj. rewrite get3_tabulate3 by assumption.
    destruct (in_window (ch - h) h r) eqn:Wr; cbn [andb].
    + destruct (in_window ((cw - w) / 2) w c) eqn:Wc.
      * unfold in_window in Wr, Wc.
        apply andb_true_iff in Wr as [Wr1 Wr2]. apply andb_true_iff in Wc as [Wc1 Wc2].
        apply Nat.leb_le in Wr1, Wc1. apply Nat.ltb_lt in Wr2, Wc2.
        rewrite !bidx_in_range by lia. reflexivity.
      * unfold zeros. now rewrite get3_tabulate3.
    + unfold zeros. now rewrite get3_tabulate3.
Qed.

(** C6. For a first frame of shape [(h, w, k)], let [ch = int(hm * h)]
    and [cw = int(wm * w)] be the products by the multipliers as Python
    computes and truncates them (for an [int] multiplier, the product
    itself), and let the frame fit in [ch] rows and [cw] columns.  Then
    [__init__] allocates a canvas of [ch] rows and [cw] columns (and the
    [k] channels of the frame), all zero except for the first frame, which
    is placed at the vertical offset [ch - h] and the horizontal offset
    [(cw - w) / 2] (integer division); the initial pose is the identity
    with these offsets in its translation column ([H_old[0, 2]] the
    horizontal one, [H_old[1, 2]] the vertical one).  The offsets depend on
    the shape of the first frame and the multipliers only. *)
Theorem init_seeds_canvas_and_pose
    (first_image : Frame) (hm wm : Py.number) (dt : string) (h w k ch cw : nat) :
  shape3 first_image = (h, w, k) -> 0 < h -> 0 < w ->
  Py.int_times hm (Z.of_nat h) = Ok (Z.of_nat ch) ->
  Py.int_times wm (Z.of_nat w) = Ok (Z.of_nat cw) ->
  h <= ch -> w <= cw ->
  dt = "sift"%string \/ dt = "orb"%string ->
  (forall a : Z, hm = PyInt a -> Z.of_nat ch = (a * Z.of_nat h)%Z) /\
  (forall a : Z, wm = PyInt a -> Z.of_nat cw = (a * Z.of_nat w)%Z) /\
  exists vm,
    VideMosaic_init first_image hm wm dt = Ok vm /\
    shape3 (output_img vm) = (ch, cw, k) /\
    w_offset vm = (Z.of_nat ch - Z.of_nat h)%Z /\
    h_offset vm = ((Z.of_nat cw - Z.of_nat w) / 2)%Z /\
    (forall r c j, r < ch -> c < cw -> j < k ->
       get3 0%Q (output_img vm) r c j =
       if in_window (ch - h) h r && in_window ((cw - w) / 2) w c
       then to_float (get3 0%N first_image (r - (ch - h)) (c - (cw - w) / 2) j)
       else 0%Q) /\
    H_old vm = [[1; 0; inject_Z (h_offset vm)];
                [0; 1; inject_Z (w_offset vm)];
                [0; 0; 1]]%Q /\
    (forall first_image' dt' vm',
       shape3 first_image' = (h, w, k) ->
       VideMosaic_init first_image' hm wm dt' = Ok vm' ->
       w_offset vm' = w_offset vm /\ h_offset vm' = h_offset vm).
Proof.
  intros Hshape Hh Hw Ech Ecw Hch Hcw Hdt.
  split; [intros a ->; cbn in Ech; congruence|].
  split; [intros a ->; cbn in Ecw; congruence|].
  assert (Hdet : exists det matcher, new_detector dt = Some (det, matcher))
    by (destruct Hdt as [-> | ->]; eexists _, _; reflexivity).
  destruct Hdet as [det [matcher Hdet]].
  destruct (@init_spec first_image hm wm dt h w k ch cw det matcher
              Hshape Hh Hw Ech Ecw Hch Hcw Hdet)
    as [vm [E [Es [Ewo [Eho [Hget EH]]]]]].
  exists vm. do 6 (split; [assumption|]).
  intros first_image' dt' vm' Hshape' E'.
  destruct (new_detector dt') as [[det' matcher']|] eqn:Hdet';
    [|unfold VideMosaic_init in E'; rewrite Hdet' in E'; discriminate].
  destruct (@init_spec first_image' hm wm dt' h w k ch cw det' matcher'
              Hshape' Hh Hw Ech Ecw Hch Hcw Hdet')
    as [vm2 [E2 [_ [Ewo2 [Eho2 _]]]]].
  assert (vm2 = vm') by congruence. subst vm2.
  split; congruence.
Qed.

End Init.

(** A first frame of 2 rows and 5 columns with the multipliers 3 and 2.3:
    a canvas of 6 rows and [int(2.3 * 5) = 11] columns, the frame in its
    last two rows, from column 3 on. *)
Lemma init_seeds_canvas_and_pose_witness :
  exists vm,
    VideMosaic_init (cv := Toy.cv) Demo.frame_A
      (PyInt 3) (PyFloat (Py.float_literal (23 # 10))) "sift" = Ok vm /\
    shape3 (output_img vm) = (6, 11, 3) /\
    w_offset vm = 4%Z /\ h_offset vm = 3%Z /\
    get3 0%Q (output_img vm) 4 3 0 = 10%Q /\
    get3 0%Q (output_img vm) 5 4 0 = 90%Q /\
    get3 0%Q (output_img vm) 4 2 0 = 0%Q /\
    get3 0%Q (output_img vm) 3 3 0 = 0%Q /\
    H_old vm = [[1; 0; 3]; [0; 1; 4]; [0; 0; 1]]%Q.
Proof.
  destruct (@init_seeds_canvas_and_pose Toy.cv Demo.frame_A
              (PyInt 3) (PyFloat (Py.float_literal (23 # 10))) "sift"%string 2 5 3 6 11)
    as [_ [_ [vm [E [Es [Ewo [Eho [Hget [EH _]]]]]]]]].
  - reflexivity.
  - lia.
  - lia.
  - vm_compute. reflexivity.
  - vm_compute. reflexivity.
  - lia.
  - lia.
  - left. reflexivity.
  - exists vm. rewrite EH, Ewo, Eho.
    rewrite (Hget 4 3 0), (Hget 5 4 0), (Hget 4 2 0), (Hget 3 3 0) by lia.
    repeat split; try assumption; reflexivity.
Defined.

(** The product is the [float64] product: [int(1.15 * 100)] is 114 and
    [int(1.15 * 20)] is 23, where the integer parts of the products of the
    decimal 1.15 are 115 and 23, and those of the products of the float
    nearest to 1.15 are 114 and 22. *)
Example int_times_rounds_the_product :
  Py.int_times (PyFloat (Py.float_literal (115 # 100))) 100 = Ok 114%Z /\
  Py.int_times (PyFloat (Py.float_literal (115 # 100))) 20 = Ok 23%Z /\
  Py.int ((115 # 100) * 100) = 115%Z /\
  Float.to_Q (Py.float_literal (115 # 100))
    = Some (2589569785738035 # 2251799813685248)%Q /\
  Py.int ((2589569785738035 # 2251799813685248) * 20) = 22%Z.
Proof. repeat split; vm_compute; reflexivity. Qed.

(* ================================================================== *)
(** ** The merge into the canvas *)

Lemma nth_map2 {A B C} (f : A -> B -> C) (la : list A) (lb : list B) da db i :
  i < length la -> i < length lb ->
  nth i (map2 f la lb) (f da db) = f (nth i la da) (nth i lb db).
Proof.
  revert lb i. induction la as [|a la IH]; intros [|b lb] i Ha Hb; simpl in *; try lia.
  destruct i as [|i]; [reflexivity|]. apply IH; lia.
Qed.

Lemma nth_map2_rows {A B C} (g : A -> B -> C) (la : list (list A)) (lb : list (list B)) i :
  i < length la -> i < length lb ->
  nth i (map2 (map2 g) la lb) [] = map2 g (nth i la []) (nth i lb []).
Proof. intros Ha Hb. exact (@nth_map2 _ _ _ (map2 g) la lb [] [] i Ha Hb). Qed.

Lemma length_map2 {A B C} (f : A -> B -> C) (la : list A) (lb : list B) :
  length la = length lb -> length (map2 f la lb) = length la.
Proof.
  revert lb. induction la as [|a la IH]; intros [|b lb] E; simpl in *; try lia.
  now rewrite IH by lia.
Qed.

Lemma map2_map_map {A B C I} (f : A -> B -> C) (g : I -> A) (h : I -> B) (l : list I) :
  map2 f (map g l) (map h l) = map (fun i => f (g i) (h i)) l.
Proof. induction l as [|i l IH]; simpl; [reflexivity | now rewrite IH]. Qed.

Lemma is_array3_row {A} (a : Array3 A) R C K r :
  is_array3 a R C K -> r < R ->
  length (nth r a []) = C /\ Forall (fun px => length px = K) (nth r a []).
Proof.
  intros [Hl Hf] Hr. rewrite Forall_forall in Hf. apply Hf, nth_In. lia.
Qed.

Lemma is_array3_pixel {A} (a : Array3 A) R C K r c :
  is_array3 a R C K -> r < R -> c < C -> length (pixel a r c) = K.
Proof.
  intros Ha Hr Hc. destruct (is_array3_row Ha Hr) as [Hl Hf].
  rewrite Forall_forall in Hf. apply Hf, nth_In. lia.
Qed.

Lemma shape3_is_array3 {A B} (a : Array3 A) (b : Array3 B) R C K :
  is_array3 a R C K -> is_array3 b R C K ->
  shape_eqb (shape3 a) (shape3 b) = true.
Proof.
  intros [Ha Hfa] [Hb Hfb]. unfold shape_eqb, shape3.
  rewrite Ha, Hb, Nat.eqb_refl.
  destruct a as [|ra a], b as [|rb b]; simpl in *; try lia; try reflexivity.
  apply Forall_inv in Hfa as [Hra Hpa]. apply Forall_inv in Hfb as [Hrb Hpb].
  rewrite Hra, Hrb, Nat.eqb_refl.
  destruct ra as [|pa ra], rb as [|pb rb]; simpl in *; try lia; try reflexivity.
  apply Forall_inv in Hpa. apply Forall_inv in Hpb.
  rewrite Hpa, Hpb. now rewrite Nat.eqb_refl.
Qed.

Lemma merged_pixel (out : Canvas) (w : Frame) R C K r c :
  is_array3 out R C K -> is_array3 w R C K -> r < R -> c < C ->
  pixel (map2 (map2 (map2 merge_sample)) out w) r c
  = map2 merge_sample (pixel out r c) (pixel w r c).
Proof.
  intros Ho Hw Hr Hc. unfold pixel.
  destruct (is_array3_row Ho Hr) as [Hlo _]. destruct (is_array3_row Hw Hr) as [Hlw _].
  destruct Ho as [Ho _]. destruct Hw as [Hw _].
  rewrite nth_map2_rows by lia. rewrite nth_map2_rows by lia. reflexivity.
Qed.

Lemma merged_sample (out : Canvas) (w : Frame) R C K r c k :
  is_array3 out R C K -> is_array3 w R C K -> r < R -> c < C -> k < K ->
  get3 0%Q (map2 (map2 (map2 merge_sample)) out w) r c k
  = merge_sample (get3 0%Q out r c k) (get3 0%N w r c k).
Proof.
  intros Ho Hw Hr Hc Hk.
  change (get3 0%Q (map2 (map2 (map2 merge_sample)) out w) r c k)
    with (nth k (pixel (map2 (map2 (map2 merge_sample)) out w) r c) 0%Q).
  rewrite (merged_pixel Ho Hw Hr Hc).
  change 0%Q with (merge_sample 0%Q 0%N) at 1.
  pose proof (is_array3_pixel Ho Hr Hc) as Eo.
  pose proof (is_array3_pixel Hw Hr Hc) as Ew.
  unfold pixel in Eo, Ew. apply nth_map2; lia.
Qed.

Lemma merged_is_array3 (out : Canvas) (w : Frame) R C K :
  is_array3 out R C K -> is_array3 w R C K ->
  is_array3 (map2 (map2 (map2 merge_sample)) out w) R C K.
Proof.
  intros Ho Hw. split.
  - destruct Ho as [Ho _], Hw as [Hw _]. rewrite length_map2; lia.
  - apply Forall_forall. intros row Hin.
    apply (In_nth _ _ []) in Hin as [r [Hr <-]].
    assert (HrR : r < R).
    { destruct Ho as [Ho _], Hw as [Hw _]. rewrite length_map2 in Hr; lia. }
    destruct (is_array3_row Ho HrR) as [Hlo _].
    destruct (is_array3_row Hw HrR) as [Hlw _].
    rewrite nth_map2_rows by (destruct Ho, Hw; lia).
    split; [rewrite length_map2; lia|].
    apply Forall_forall. intros px Hpx.
    apply (In_nth _ _ []) in Hpx as [c [Hc <-]].
    assert (HcC : c < C) by (rewrite length_map2 in Hc; lia).
    rewrite nth_map2_rows by lia.
    pose proof (is_array3_pixel Ho HrR HcC) as Hpo.
    pose proof (is_array3_pixel Hw HrR HcC) as Hpw. unfold pixel in Hpo, Hpw.
    rewrite length_map2; lia.
Qed.

Lemma is_array3_tabulate3 {A} (R C K : nat) (f : nat -> nat -> nat -> A) :
  is_array3 (tabulate3 R C K f) R C K.
Proof.
  unfold is_array3, tabulate3. split; [now rewrite length_map, length_seq|].
  apply Forall_forall. intros row Hin. apply in_map_iff in Hin as [r [<- _]].
  split; [now rewrite length_map, length_seq|].
  apply Forall_forall. intros px Hpx. apply in_map_iff in Hpx as [c [<- _]].
  now rewrite length_map, length_seq.
Qed.

Lemma merge_tabulate3 (R C K : nat) (fo : nat -> nat -> nat -> Q)
    (fw : nat -> nat -> nat -> N) :
  merge (tabulate3 R C K fo) (tabulate3 R C K fw)
  = Ok (tabulate3 R C K (fun r c k => merge_sample (fo r c k) (fw r c k))).
Proof.
  unfold merge.
  rewrite (shape3_is_array3 (is_array3_tabulate3 R C K fo) (is_array3_tabulate3 R C K fw)).
  lazy iota. apply f_equal. unfold tabulate3. rewrite map2_map_map.
  apply map_ext. intros r. rewrite map2_map_map.
  apply map_ext. intros c. apply map2_map_map.
Qed.

Lemma merge_sample_nonzero (o : Q) (w : N) :
  merge_sample o w = if (w =? 0)%N then o else to_float w.
Proof.
  unfold merge_sample. destruct (N.eqb_spec w 0) as [-> | Hne]; [reflexivity|].
  destruct (N.ltb_spec 0 w); [reflexivity | lia].
Qed.

Lemma merge_pixel_all_nonzero (po : list Q) (pw : list N) :
  length po = length pw -> Forall (fun s => s <> 0%N) pw ->
  map2 merge_sample po pw = map to_float pw.
Proof.
  revert pw. induction po as [|o po IH]; intros [|s pw] E Hf; simpl in *; try lia;
    [reflexivity|].
  inversion Hf as [|? ? Hs Hf']; subst. rewrite merge_sample_nonzero.
  destruct (N.eqb_spec s 0); [contradiction|].
  rewrite (IH pw) by (lia || assumption). reflexivity.
Qed.

Lemma merge_pixel_all_zero (po : list Q) (pw : list N) :
  length po = length pw -> Forall (fun s => s = 0%N) pw ->
  map2 merge_sample po pw = po.
Proof.
  revert pw. induction po as [|o po IH]; intros [|s pw] E Hf; simpl in *; try lia;
    [reflexivity|].
  inversion Hf as [|? ? Hs Hf']; subst.
  rewrite (IH pw) by (lia || assumption). reflexivity.
Qed.

(** C7, read on whole pixels, fails: a warped pixel (0, 0, 255) over a
    canvas pixel (9, 9, 9) leaves (9, 9, 255).  The two zero channels keep
    the canvas, so the canvas pixel is not the warped pixel. *)
Lemma merge_keeps_canvas_under_zero_channels :
  merge [[[9; 9; 9]]]%Q [[[0; 0; 255]]]%N = Ok [[[9; 9; 255]]]%Q /\
  ~ merge_replaces_nonzero_pixels.
Proof.
  split; [reflexivity|]. intros Hpix.
  assert (E : pixel [[[9; 9; 255]]]%Q 0 0 = map to_float (pixel [[[0; 0; 255]]]%N 0 0)).
  { apply (Hpix [[[9; 9; 9]]]%Q [[[0; 0; 255]]]%N [[[9; 9; 255]]]%Q 1 1 3 0 0).
    - split; [reflexivity|]. repeat constructor.
    - split; [reflexivity|]. repeat constructor.
    - reflexivity.
    - lia.
    - lia.
    - simpl. apply Exists_cons_tl, Exists_cons_tl, Exists_cons_hd. discriminate. }
  vm_compute in E. discriminate.
Qed.

(** C7, amended.  The merge works on samples, that is on each channel of
    each pixel by itself: a non-zero sample of the warped frame replaces
    the sample of the canvas, a zero sample leaves it.  Hence a warped
    pixel with no zero channel replaces the canvas pixel, a pixel that is
    zero in all channels leaves it, and merging a frame that is zero
    except for a rectangle of samples [B <> 0] into a canvas filled with
    [A] gives [A] outside the rectangle and [B] inside. *)
Theorem merge_overwrites_nonzero_samples
    (out : Canvas) (w : Frame) (R C K : nat) :
  is_array3 out R C K -> is_array3 w R C K ->
  exists out' : Canvas,
    merge out w = Ok out' /\
    is_array3 out' R C K /\
    (forall r c k, r < R -> c < C -> k < K ->
       get3 0%Q out' r c k =
       if (get3 0%N w r c k =? 0)%N then get3 0%Q out r c k
       else to_float (get3 0%N w r c k)) /\
    (forall r c, r < R -> c < C ->
       Forall (fun s => s <> 0%N) (pixel w r c) ->
       pixel out' r c = map to_float (pixel w r c)) /\
    (forall r c, r < R -> c < C ->
       Forall (fun s => s = 0%N) (pixel w r c) ->
       pixel out' r c = pixel out r c) /\
    (forall (A : Q) (B : N) (r0 h0 c0 w0 : nat), B <> 0%N ->
       merge (tabulate3 R C K (fun _ _ _ => A))
             (tabulate3 R C K (fun r c _ =>
                if in_window r0 h0 r && in_window c0 w0 c then B else 0%N))
       = Ok (tabulate3 R C K (fun r c _ =>
                if in_window r0 h0 r && in_window c0 w0 c then to_float B else A))).
Proof.
  intros Ho Hw. exists (map2 (map2 (map2 merge_sample)) out w).
  split; [unfold merge; now rewrite (shape3_is_array3 Ho Hw)|].
  split; [now apply merged_is_array3|].
  split; [|split; [|split]].
  - intros r c k Hr Hc Hk.
    rewrite (merged_sample Ho Hw Hr Hc Hk). apply merge_sample_nonzero.
  - intros r c Hr Hc Hnz. rewrite (merged_pixel Ho Hw Hr Hc).
    apply merge_pixel_all_nonzero; [|exact Hnz].
    now rewrite (is_array3_pixel Ho Hr Hc), (is_array3_pixel Hw Hr Hc).
  - intros r c Hr Hc Hz. rewrite (merged_pixel Ho Hw Hr Hc).
    apply merge_pixel_all_zero; [|exact Hz].
    now rewrite (is_array3_pixel Ho Hr Hc), (is_array3_pixel Hw Hr Hc).
  - intros A B r0 h0 c0 w0 HB. rewrite merge_tabulate3. apply f_equal.
    unfold tabulate3. apply map_ext. intros r. apply map_ext. intros c.
    apply map_ext. intros k. rewrite merge_sample_nonzero.
    destruct (in_window r0 h0 r && in_window c0 w0 c); [|reflexivity].
    destruct (N.eqb_spec B 0); [contradiction | reflexivity].
Qed.

Lemma merge_overwrites_nonzero_samples_witness :
  exists out' : Canvas,
    merge [[[9; 9; 9]; [7; 7; 7]]]%Q [[[0; 0; 255]; [1; 2; 3]]]%N = Ok out' /\
    out' = [[[9; 9; 255]; [1; 2; 3]]]%Q /\
    merge (tabulate3 2 3 3 (fun _ _ _ => 7%Q))
          (tabulate3 2 3 3 (fun r c _ =>
             if in_window 0 1 r && in_window 1 2 c then 200%N else 0%N))
    = Ok [[[7; 7; 7]; [200; 200; 200]; [200; 200; 200]];
          [[7; 7; 7]; [7; 7; 7]; [7; 7; 7]]]%Q.
Proof.
  destruct (@merge_overwrites_nonzero_samples
              [[[9; 9; 9]; [7; 7; 7]]]%Q [[[0; 0; 255]; [1; 2; 3]]]%N 1 2 3)
    as [out' [E [_ [_ [_ [_ Hrect]]]]]].
  - split; [reflexivity|]. repeat constructor.
  - split; [reflexivity|]. repeat constructor.
  - exists out'. split; [exact E|]. split.
    + vm_compute in E. now injection E as <-.
    + vm_compute. reflexivity.
Defined.

(* ================================================================== *)
(** ** A robust fit without solution *)

Section FitFailure.

Context {cv : Cv2} {numpy : NumPy}.

Lemma main_loop_app (before rest : list Frame) (q_pressed : nat -> bool) :
  forall (vm vm' : VideMosaic) (idx : nat) (log : list Event),
    (forall i, idx <= i < idx + length before -> q_pressed i = false) ->
    main_loop vm before idx q_pressed = (log, Ok vm') ->
    main_loop vm (before ++ rest) idx q_pressed =
      (log ++ fst (main_loop vm' rest (idx + length before) q_pressed),
       snd (main_loop vm' rest (idx + length before) q_pressed)).
Proof.
  induction before as [|f before IH]; intros vm vm' idx log Hq E.
  - cbn [main_loop] in E. injection E as <- <-.
    cbn [app length]. rewrite Nat.add_0_r.
    now destruct (main_loop vm rest idx q_pressed).
  - cbn [app main_loop] in *.
    destruct (process_frame vm f) as [vm1 [l1 [[]|e]]]; [|discriminate].
    rewrite (Hq idx) in * by (cbn [length]; lia).
    destruct (main_loop vm1 before (S idx) q_pressed) as [log' r'] eqn:E1.
    injection E as <- ->.
    rewrite (IH vm1 vm' (S idx) log') by
      (try (intros i Hi; apply Hq; cbn [length]; lia); assumption).
    cbn [length]. rewrite Nat.add_succ_r, app_assoc. reflexivity.
Qed.

(** C9, amended.  When the robust fit of a frame returns no transform
    ([None]), [findHomography] raises the [AttributeError] of reading
    [.shape] on [None]; [process_frame] does not catch it and leaves the
    cumulative pose, the canvas and the previous keypoints, descriptors
    and frame as they were; [main] does not catch it either, so the run
    ends there and no mosaic is written.  The exception names neither the
    frame nor a reason. *)
Theorem fit_failure_raises_and_aborts
    (self : VideMosaic) (frame_cur : Frame) (matches : list DMatch) :
  frame_matches self frame_cur = Ok matches ->
  4 <= length matches ->
  snd (estimate (frame_keypoints self frame_cur) (kp_prev self) matches) = Ok None ->
  snd (findHomography (frame_keypoints self frame_cur) (kp_prev self) matches)
    = Raise none_has_no_shape /\
  snd (snd (process_frame self frame_cur)) = Raise none_has_no_shape /\
  retained self (fst (process_frame self frame_cur)) /\
  forall first_frame before after q_pressed vm0 log0,
    VideMosaic_init first_frame height_times_default width_times_default "sift" = Ok vm0 ->
    (forall i, q_pressed i = false) ->
    main_loop vm0 before 1 q_pressed = (log0, Ok self) ->
    main (Some (first_frame :: before ++ frame_cur :: after)) q_pressed
      = (log0 ++ fst (snd (process_frame self frame_cur)), Raise none_has_no_shape).
Proof.
  intros Hm Hlen Hfit.
  assert (Hfh : snd (findHomography (frame_keypoints self frame_cur) (kp_prev self) matches)
                = Raise none_has_no_shape).
  { unfold findHomography.
    destruct (estimate (frame_keypoints self frame_cur) (kp_prev self) matches)
      as [log fit]. cbn [snd] in *. now rewrite Hfit. }
  assert (Hpf : snd (snd (process_frame self frame_cur)) = Raise none_has_no_shape /\
                retained self (fst (process_frame self frame_cur))).
  { rewrite process_frame_unfold. cbv zeta. rewrite Hm.
    apply Nat.ltb_ge in Hlen. rewrite Hlen.
    destruct (findHomography (frame_keypoints self frame_cur) (kp_prev self) matches)
      as [log1 [Hinc|e]]; cbn [snd] in Hfh; [discriminate|].
    injection Hfh as ->. cbn [fst snd]. split; [reflexivity|]. repeat split. }
  destruct Hpf as [Hraise Hret].
  split; [exact Hfh|]. split; [exact Hraise|]. split; [exact Hret|].
  intros first_frame before after q_pressed vm0 log0 Hinit Hq Hloop.
  cbn [main]. rewrite Hinit.
  rewrite (@main_loop_app before (frame_cur :: after) q_pressed vm0 self 1 log0
             (fun i _ => Hq i) Hloop).
  cbn [main_loop].
  destruct (process_frame self frame_cur) as [vm1 [l1 r1]]. cbn [fst snd] in *.
  subst r1. reflexivity.
Qed.

End FitFailure.

(** C9, as far as the frame index goes, fails: the fit fails on frame 1 of
    one video and on frame 2 of another, and both runs end with the same
    exception, so the index cannot be read off it. *)
Lemma fit_failure_does_not_tell_the_frame :
  aborts_at (cv := Toy.cv) video_failing_at_1 Demo.no_key 1 none_has_no_shape /\
  aborts_at (cv := Toy.cv) video_failing_at_2 Demo.no_key 2 none_has_no_shape /\
  ~ failure_carries_frame_index (cv := Toy.cv).
Proof.
  assert (H1 : aborts_at (cv := Toy.cv) video_failing_at_1 Demo.no_key 1 none_has_no_shape)
    by (repeat split; vm_compute; reflexivity).
  assert (H2 : aborts_at (cv := Toy.cv) video_failing_at_2 Demo.no_key 2 none_has_no_shape)
    by (repeat split; vm_compute; reflexivity).
  split; [exact H1|]. split; [exact H2|].
  intros [frame_index Hidx].
  pose proof (Hidx _ _ _ _ H1) as E1. pose proof (Hidx _ _ _ _ H2) as E2.
  rewrite E1 in E2. discriminate.
Qed.

Lemma fit_failure_raises_and_aborts_witness :
  snd (snd (process_frame (cv := Toy.cv) Demo.mosaic_A Demo.frame_torn))
    = Raise none_has_no_shape /\
  retained Demo.mosaic_A (fst (process_frame (cv := Toy.cv) Demo.mosaic_A Demo.frame_torn)) /\
  snd (main (cv := Toy.cv) (Some video_failing_at_1) Demo.no_key)
    = Raise none_has_no_shape.
Proof.
  destruct (@fit_failure_raises_and_aborts Toy.cv Toy.numpy Demo.mosaic_A Demo.frame_torn
              (match frame_matches (cv := Toy.cv) Demo.mosaic_A Demo.frame_torn with
               | Ok ms => ms | Raise _ => [] end))
    as [_ [Hraise [Hret Hmain]]].
  - vm_compute. reflexivity.
  - vm_compute. lia.
  - vm_compute. reflexivity.
  - split; [exact Hraise|]. split; [exact Hret|].
    change video_failing_at_1 with (Demo.frame_A :: [] ++ Demo.frame_torn :: []).
    rewrite (Hmain Demo.frame_A [] [] Demo.no_key Demo.mosaic_A []).
    + reflexivity.
    + vm_compute. reflexivity.
    + reflexivity.
    + reflexivity.
Defined.

(* ================================================================== *)
(** ** [match]: the ratio test, ties, and the number of matches *)

Lemma ratio_test_pairs (pair_matches : list (list DMatch)) :
  Forall (fun cand => length cand = 2) pair_matches ->
  ratio_test pair_matches = Ok (flat_map ratio_kept pair_matches).
Proof.
  induction 1 as [|cand rest Hc _ IH]; [reflexivity|].
  destruct cand as [|m [|n [|x cand]]]; try discriminate.
  cbn [ratio_test flat_map ratio_kept]. rewrite IH. cbn [Py.bind].
  now destruct (Py.lt (distance m) ((7 # 10) * distance n)%Q).
Qed.

Lemma ratio_test_not_pair (pair_matches : list (list DMatch)) :
  Exists (fun cand => length cand <> 2) pair_matches ->
  ratio_test pair_matches = Raise unpack_error.
Proof.
  induction 1 as [cand rest Hc | cand rest _ IH].
  - destruct cand as [|m [|n [|x cand]]]; try reflexivity. now contradiction Hc.
  - destruct cand as [|m [|n [|x cand]]]; try reflexivity.
    cbn [ratio_test]. now rewrite IH.
Qed.

Lemma ratio_test_raises (pair_matches : list (list DMatch)) (e : PyExc) :
  ratio_test pair_matches = Raise e -> e = unpack_error.
Proof.
  induction pair_matches as [|cand rest IH]; [discriminate|].
  destruct cand as [|m [|n [|x cand]]]; cbn [ratio_test]; try congruence.
  destruct (ratio_test rest); cbn [Py.bind]; [discriminate|].
  intros E. apply IH. congruence.
Qed.

Lemma ratio_test_length (pair_matches : list (list DMatch)) (ms : list DMatch) :
  ratio_test pair_matches = Ok ms -> length ms <= length pair_matches.
Proof.
  revert ms. induction pair_matches as [|cand rest IH]; intros ms.
  - intros E. injection E as <-. apply Nat.le_refl.
  - destruct cand as [|m [|n [|x cand]]]; cbn [ratio_test]; try discriminate.
    destruct (ratio_test rest) as [kept|]; cbn [Py.bind]; [|discriminate].
    specialize (IH kept eq_refl). intros E. injection E as <-.
    destruct (Py.lt _ _); cbn [length]; lia.
Qed.

Lemma at_distance_insert (d : Q) (x : DMatch) (l : list DMatch) :
  at_distance d (insert_by_distance x l) = at_distance d (x :: l).
Proof.
  unfold at_distance. induction l as [|y l IH]; [reflexivity|].
  cbn [insert_by_distance].
  destruct (Qle_bool (distance x) (distance y)) eqn:Exy; [reflexivity|].
  cbn [filter] in *. rewrite IH.
  destruct (Qeq_bool (distance x) d) eqn:Ex; [|reflexivity].
  destruct (Qeq_bool (distance y) d) eqn:Ey; [|reflexivity].
  apply Qeq_bool_iff in Ex, Ey.
  assert (Hle : (distance x <= distance y)%Q) by (rewrite Ex, Ey; apply Qle_refl).
  apply Qle_bool_iff in Hle. congruence.
Qed.

Lemma at_distance_sorted (d : Q) (l : list DMatch) :
  at_distance d (sorted_by_distance l) = at_distance d l.
Proof.
  induction l as [|x l IH]; [reflexivity|].
  cbn [sorted_by_distance fold_right]. rewrite at_distance_insert.
  unfold at_distance in *. cbn [filter].
  change (fold_right insert_by_distance [] l) with (sorted_by_distance l).
  now rewrite IH.
Qed.

Section MatchMore.

Context {cv : Cv2} {numpy : NumPy}.

(** X1. With the float-descriptor detector, [match] unpacks what
    [knnMatch] returns with [for m, n in pair_matches]: when all entries
    are pairs it returns, sorted and cut to 30, the best candidates that
    are closer than 0.7 times their second best; as soon as one entry is
    not a pair it raises the [ValueError] of the unpacking; and an error
    of [knnMatch] is the error of [match]. *)
Theorem match_ratio_test_needs_pairs
    (self : VideMosaic) (des_cur des_prev : option Descriptors) :
  detector_type self = "sift"%string ->
  (forall pair_matches,
     knnMatch (bf self) des_cur des_prev 2 = Ok pair_matches ->
     (Forall (fun cand => length cand = 2) pair_matches ->
      match_ self des_cur des_prev =
        Ok (firstn 30 (sorted_by_distance (flat_map ratio_kept pair_matches)))) /\
     (Exists (fun cand => length cand <> 2) pair_matches ->
      match_ self des_cur des_prev = Raise unpack_error)) /\
  (forall e,
     knnMatch (bf self) des_cur des_prev 2 = Raise e ->
     match_ self des_cur des_prev = Raise e).
Proof.
  intros Hsift. unfold match_, raw_matches. rewrite Hsift.
  change (String.eqb "sift" "sift") with true. cbv iota. split.
  - intros pair_matches ->. cbn [Py.bind]. split.
    + intros Hp. now rewrite (ratio_test_pairs Hp).
    + intros He. now rewrite (ratio_test_not_pair He).
  - intros e ->. reflexivity.
Qed.

(** X2. [sorted] is stable and [[:30]] keeps a prefix: among the raw
    matches at one distance, [match] returns the earliest ones, in the
    order the matcher gave them. *)
Theorem match_keeps_ties_in_order
    (self : VideMosaic) (des_cur des_prev : option Descriptors)
    (raw matches : list DMatch) :
  raw_matches self des_cur des_prev = Ok raw ->
  match_ self des_cur des_prev = Ok matches ->
  forall d : Q, exists later : list DMatch,
    at_distance d raw = at_distance d matches ++ later.
Proof.
  intros Hraw. unfold match_. rewrite Hraw. cbn [Py.bind]. intros E d.
  assert (Em : matches = firstn match_count_cap (sorted_by_distance raw)) by congruence.
  exists (at_distance d (skipn match_count_cap (sorted_by_distance raw))).
  rewrite Em, <- (at_distance_sorted d raw). unfold at_distance.
  rewrite <- filter_app. now rewrite firstn_skipn.
Qed.

Context {contract : Cv2Contract cv}.

Lemma raw_matches_length (self : VideMosaic) des_c des_p raw :
  raw_matches self des_c des_p = Ok raw -> length raw <= n_descriptors des_c.
Proof.
  unfold raw_matches. destruct (String.eqb (detector_type self) "sift").
  - destruct (knnMatch (bf self) des_c des_p 2) as [rows|] eqn:Ek; [|discriminate].
    cbn [Py.bind]. intros E. apply ratio_test_length in E.
    etransitivity; [exact E | exact (knnMatch_rows _ _ _ _ Ek)].
  - intros E. exact (bf_match_rows _ _ _ E).
Qed.

Lemma match_length (self : VideMosaic) des_c des_p matches :
  match_ self des_c des_p = Ok matches ->
  length matches <= Nat.min 30 (n_descriptors des_c).
Proof.
  unfold match_. destruct (raw_matches self des_c des_p) as [raw|] eqn:Er;
    [|discriminate].
  cbn [Py.bind]. intros E.
  assert (Em : matches = firstn match_count_cap (sorted_by_distance raw)) by congruence.
  pose proof (raw_matches_length _ _ _ Er) as Hl.
  pose proof (Permutation_length (sorted_by_distance_perm raw)) as Hp.
  rewrite Em, length_firstn. unfold match_count_cap. lia.
Qed.

(** X3. [match] never returns more matches than the current frame has
    keypoints.  So a frame with fewer than 4 keypoints is never used for
    an estimate: [process_frame] prints nothing, calls no fit and no
    resampling, keeps the pose, the canvas and the previous frame, and
    returns, unless [match] raises (the error of the matcher or the
    [ValueError] of the ratio test), which is then what it raises. *)
Theorem few_keypoints_never_estimated (self : VideMosaic) (frame_cur : Frame) :
  length (frame_keypoints self frame_cur) < 4 ->
  (forall matches, frame_matches self frame_cur = Ok matches ->
     length matches <= length (frame_keypoints self frame_cur)) /\
  fst (snd (process_frame self frame_cur)) = [] /\
  retained self (fst (process_frame self frame_cur)) /\
  snd (snd (process_frame self frame_cur)) =
    match frame_matches self frame_cur with
    | Ok _ => Ok tt
    | Raise e => Raise e
    end.
Proof.
  intros Hkp.
  assert (Hlen : forall matches, frame_matches self frame_cur = Ok matches ->
            length matches <= length (frame_keypoints self frame_cur)).
  { intros matches Hm. apply match_length in Hm.
    unfold frame_descriptors in Hm. rewrite detect_cardinality in Hm.
    unfold frame_keypoints. lia. }
  split; [exact Hlen|].
  destruct (frame_matches self frame_cur) as [matches|e] eqn:Hm.
  - rewrite (process_frame_skip_eq self frame_cur Hm)
      by (specialize (Hlen matches eq_refl); lia).
    cbn [fst snd]. split; [reflexivity|]. split; [|reflexivity].
    unfold retained. cbn [set_cur H_old output_img kp_prev des_prev frame_prev].
    repeat split.
  - rewrite process_frame_unfold. cbv zeta. rewrite Hm. cbn [fst snd].
    split; [reflexivity|]. split; [|reflexivity].
    unfold retained. cbn [set_cur H_old output_img kp_prev des_prev frame_prev].
    repeat split.
Qed.

End MatchMore.

Lemma match_ratio_test_needs_pairs_witness :
  match_ (cv := Toy.cv) Demo.mosaic_A (Some [[10]; [50]]%Q) (Some [[10]; [90]]%Q)
    = Ok [{| queryIdx := 0; trainIdx := 0; distance := 0 |}] /\
  match_ (cv := Toy.cv) Demo.mosaic_A (Some [[10]; [50]]%Q) None
    = Raise Toy.knn_error.
Proof.
  destruct (@match_ratio_test_needs_pairs Toy.cv Demo.mosaic_A
              (Some [[10]; [50]]%Q) (Some [[10]; [90]]%Q) eq_refl) as [Hok _].
  destruct (@match_ratio_test_needs_pairs Toy.cv Demo.mosaic_A
              (Some [[10]; [50]]%Q) None eq_refl) as [_ Hraise].
  split.
  - destruct (Hok _ eq_refl) as [Hpairs _].
    rewrite Hpairs; [vm_compute; reflexivity|]. repeat constructor.
  - apply Hraise. reflexivity.
Defined.

Lemma match_keeps_ties_in_order_witness :
  exists raw matches later : list DMatch,
    raw_matches (cv := Toy.cv) orb_mosaic (Some [[3]; [5]; [3]]%Q) (Some [[0]]%Q) = Ok raw /\
    match_ (cv := Toy.cv) orb_mosaic (Some [[3]; [5]; [3]]%Q) (Some [[0]]%Q) = Ok matches /\
    map queryIdx raw = [0; 1; 2] /\
    map queryIdx matches = [0; 2; 1] /\
    at_distance 3 raw = at_distance 3 matches ++ later.
Proof.
  eexists _, _.
  destruct (@match_keeps_ties_in_order Toy.cv orb_mosaic
              (Some [[3]; [5]; [3]]%Q) (Some [[0]]%Q) _ _ eq_refl eq_refl 3%Q)
    as [later Hlater].
  exists later. split; [reflexivity|]. split; [reflexivity|].
  split; [vm_compute; reflexivity|]. split; [vm_compute; reflexivity|].
  exact Hlater.
Defined.

Lemma few_keypoints_never_estimated_witness :
  length (frame_keypoints (cv := Toy.cv) Demo.mosaic_A Demo.frame_3kp) = 3 /\
  fst (snd (process_frame (cv := Toy.cv) Demo.mosaic_A Demo.frame_3kp)) = [] /\
  retained Demo.mosaic_A (fst (process_frame (cv := Toy.cv) Demo.mosaic_A Demo.frame_3kp)) /\
  snd (snd (process_frame (cv := Toy.cv) Demo.mosaic_A Demo.frame_3kp)) = Ok tt.
Proof.
  split; [vm_compute; reflexivity|].
  destruct (@few_keypoints_never_estimated Toy.cv Toy.numpy Toy_contract
              Demo.mosaic_A Demo.frame_3kp) as [_ [Hlog [Hret Hres]]].
  - vm_compute. lia.
  - split; [exact Hlog|]. split; [exact Hret|]. rewrite Hres. reflexivity.
Defined.

(* ================================================================== *)
(** ** [warp] and [process_frame]: what a call changes *)

Lemma hd_map2 {A B C} (g : A -> B -> C) (la : list (list A)) (lb : list (list B)) :
  length la = length lb ->
  hd [] (map2 (map2 g) la lb) = map2 g (hd [] la) (hd [] lb).
Proof. destruct la, lb; simpl; intros E; (discriminate || reflexivity). Qed.

Lemma shape_eqb_eq (s t : nat * nat * nat) : shape_eqb s t = true -> s = t.
Proof.
  destruct s as [[a b] c], t as [[a' b'] c']. unfold shape_eqb.
  rewrite !andb_true_iff, !Nat.eqb_eq. intros [[-> ->] ->]. reflexivity.
Qed.

(** The merge keeps the extents of the canvas. *)
Lemma merge_shape (out : Canvas) (w : Frame) (out' : Canvas) :
  merge out w = Ok out' -> shape3 out' = shape3 out.
Proof.
  unfold merge. destruct (shape_eqb (shape3 out) (shape3 w)) eqn:Es; [|discriminate].
  intros E. injection E as <-. apply shape_eqb_eq in Es.
  unfold shape3 in *. injection Es as E1 E2 E3.
  rewrite (hd_map2 _ _ _ E1), (hd_map2 _ _ _ E2).
  rewrite !length_map2 by assumption. reflexivity.
Qed.

Lemma map2_idempotent {A B} (f : A -> B -> A) (la : list A) (lb : list B) :
  (forall a b, f (f a b) b = f a b) ->
  map2 f (map2 f la lb) lb = map2 f la lb.
Proof.
  intros Hf. revert lb. induction la as [|a la IH]; intros [|b lb]; simpl;
    try reflexivity.
  now rewrite Hf, IH.
Qed.

Lemma merge_sample_idempotent (o : Q) (w : N) :
  merge_sample (merge_sample o w) w = merge_sample o w.
Proof. unfold merge_sample. now destruct (0 <? w)%N. Qed.

(** X4. Merging the same warped frame a second time changes nothing. *)
Theorem merge_twice_is_merge_once (out : Canvas) (w : Frame) (out' : Canvas) :
  merge out w = Ok out' -> merge out' w = Ok out'.
Proof.
  intros E. pose proof (merge_shape _ _ E) as Hs. revert E. unfold merge.
  rewrite Hs. destruct (shape_eqb (shape3 out) (shape3 w)); [|discriminate].
  intros E. injection E as <-. apply f_equal.
  apply map2_idempotent. intros a b.
  apply map2_idempotent. intros a' b'.
  apply map2_idempotent. exact merge_sample_idempotent.
Qed.

Lemma merge_twice_is_merge_once_witness :
  merge [[[9; 9; 9]; [7; 7; 7]]]%Q [[[0; 0; 255]; [1; 2; 3]]]%N
    = Ok [[[9; 9; 255]; [1; 2; 3]]]%Q /\
  merge [[[9; 9; 255]; [1; 2; 3]]]%Q [[[0; 0; 255]; [1; 2; 3]]]%N
    = Ok [[[9; 9; 255]; [1; 2; 3]]]%Q.
Proof.
  split; [reflexivity|].
  apply (@merge_twice_is_merge_once [[[9; 9; 9]; [7; 7; 7]]]%Q).
  reflexivity.
Defined.

Section CallEffects.

Context {cv : Cv2} {numpy : NumPy}.

Lemma warp_unfold (self : VideMosaic) (frame_cur : Frame) (M : Matrix) :
  warp self frame_cur M =
  match merge (output_img self) (warped_frame self frame_cur M) with
  | Raise e =>
      (self, ([if has_shape M 2 3 then Called_warpAffine M (canvas_dsize self)
               else Called_warpPerspective M (canvas_dsize self)], Raise e))
  | Ok out =>
      (set_output_img self out,
       ([if has_shape M 2 3 then Called_warpAffine M (canvas_dsize self)
         else Called_warpPerspective M (canvas_dsize self)], Ok out))
  end.
Proof.
  unfold warp, warped_frame, canvas_dsize.
  destruct (shape3 (output_img self)) as [[oh ow] k]. cbn [fst snd].
  destruct (has_shape M 2 3); reflexivity.
Qed.

Lemma same_setup_refl (self : VideMosaic) : same_setup self self.
Proof. repeat split. Qed.

Lemma warp_same_setup (self : VideMosaic) (frame_cur : Frame) (M : Matrix) :
  same_setup self (fst (warp self frame_cur M)).
Proof.
  rewrite warp_unfold.
  destruct (merge (output_img self) (warped_frame self frame_cur M)) as [out|e] eqn:E;
    cbn [fst]; [|apply same_setup_refl].
  unfold same_setup. cbn [set_output_img detector_type detector bf visualize
                          w_offset h_offset output_img].
  repeat split. exact (merge_shape _ _ E).
Qed.

(** X5. A call of [process_frame] that raises, whatever the exception
    and wherever it arises (matching, estimation, chaining or merge),
    leaves the cumulative pose, the canvas and the previous keypoints,
    descriptors and frame as they were. *)
Theorem process_frame_raise_keeps_state
    (self : VideMosaic) (frame_cur : Frame) (e : PyExc) :
  snd (snd (process_frame self frame_cur)) = Raise e ->
  retained self (fst (process_frame self frame_cur)).
Proof.
  rewrite process_frame_unfold. cbv zeta.
  destruct (frame_matches self frame_cur) as [matches|e0];
    [|intros _; repeat split].
  destruct (length matches <? 4); [discriminate|].
  destruct (findHomography _ (kp_prev self) matches) as [log1 [Hinc|e1]];
    [|intros _; repeat split].
  destruct (matmul (H_old self) Hinc) as [Hnew|e2]; [|intros _; repeat split].
  rewrite warp_unfold.
  destruct (merge _ _) as [out|e3]; cbn [fst snd]; [discriminate|].
  intros _. repeat split.
Qed.

(** X6. When a frame is processed to the end, the frame, its keypoints
    and its descriptors become the previous ones, and the canvas is the
    old canvas merged with the frame resampled under the new cumulative
    pose, at the size (columns, rows) of the canvas. *)
Theorem processed_frame_rolls_over
    (self : VideMosaic) (frame_cur : Frame) (matches : list DMatch) :
  frame_matches self frame_cur = Ok matches ->
  4 <= length matches ->
  snd (snd (process_frame self frame_cur)) = Ok tt ->
  frame_prev (fst (process_frame self frame_cur)) = frame_cur /\
  kp_prev (fst (process_frame self frame_cur)) = frame_keypoints self frame_cur /\
  des_prev (fst (process_frame self frame_cur)) = frame_descriptors self frame_cur /\
  merge (output_img self)
        (warped_frame self frame_cur (H_old (fst (process_frame self frame_cur))))
    = Ok (output_img (fst (process_frame self frame_cur))).
Proof.
  intros Hm Hlen. rewrite process_frame_unfold. cbv zeta. rewrite Hm.
  apply Nat.ltb_ge in Hlen. rewrite Hlen.
  destruct (findHomography _ (kp_prev self) matches) as [log1 [Hinc|e1]];
    [|discriminate].
  destruct (matmul (H_old self) Hinc) as [Hnew|e2]; [|discriminate].
  rewrite warp_unfold.
  change (warped_frame (set_H (set_H (set_cur self frame_cur
            (frame_keypoints self frame_cur) (frame_descriptors self frame_cur))
            Hinc) Hnew) frame_cur Hnew)
    with (warped_frame self frame_cur Hnew).
  cbn [output_img set_H set_cur].
  destruct (merge (output_img self) (warped_frame self frame_cur Hnew))
    as [out|e3] eqn:Emerge; cbn [fst snd]; [|discriminate].
  intros _. cbn [roll_over frame_prev kp_prev des_prev H_old output_img set_output_img].
  repeat split. exact Emerge.
Qed.

(** No call of [process_frame] changes the detector, the matcher, the
    offsets or the extents of the canvas. *)
Lemma process_frame_same_setup (self : VideMosaic) (frame_cur : Frame) :
  same_setup self (fst (process_frame self frame_cur)).
Proof.
  rewrite process_frame_unfold. cbv zeta.
  destruct (frame_matches self frame_cur) as [matches|e0]; [|repeat split].
  destruct (length matches <? 4); [repeat split|].
  destruct (findHomography _ (kp_prev self) matches) as [log1 [Hinc|e1]];
    [|repeat split].
  destruct (matmul (H_old self) Hinc) as [Hnew|e2]; [|repeat split].
  pose proof (warp_same_setup
                (set_H (set_H (set_cur self frame_cur (frame_keypoints self frame_cur)
                                 (frame_descriptors self frame_cur)) Hinc) Hnew)
                frame_cur Hnew) as Hw.
  destruct (warp _ frame_cur Hnew) as [self4 [log2 [out|e3]]]; cbn [fst] in *; exact Hw.
Qed.

Lemma process_frame_set_cur (self : VideMosaic) (f : Frame) kp des (frame_cur : Frame) :
  process_frame (set_cur self f kp des) frame_cur = process_frame self frame_cur.
Proof. reflexivity. Qed.

(** X7. A skipped frame leaves no trace: the call for the next frame does
    exactly what it would have done had the skipped frame never come. *)
Theorem skipped_frame_leaves_no_trace
    (self : VideMosaic) (skipped frame_cur : Frame) (matches : list DMatch) :
  frame_matches self skipped = Ok matches ->
  length matches < 4 ->
  process_frame (fst (process_frame self skipped)) frame_cur
  = process_frame self frame_cur.
Proof.
  intros Hm Hlen. rewrite (process_frame_skip_eq self skipped Hm Hlen).
  cbn [fst]. apply process_frame_set_cur.
Qed.

End CallEffects.

Lemma process_frame_raise_keeps_state_witness :
  snd (snd (process_frame (cv := Toy.cv) Demo.mosaic_A Demo.frame_torn))
    = Raise none_has_no_shape /\
  retained Demo.mosaic_A
    (fst (process_frame (cv := Toy.cv) Demo.mosaic_A Demo.frame_torn)).
Proof.
  split; [vm_compute; reflexivity|].
  apply (@process_frame_raise_keeps_state Toy.cv Toy.numpy Demo.mosaic_A Demo.frame_torn
           none_has_no_shape).
  vm_compute. reflexivity.
Defined.

Lemma processed_frame_rolls_over_witness :
  frame_prev (fst (process_frame (cv := Toy.cv) Demo.mosaic_A Demo.frame_B))
    = Demo.frame_B /\
  kp_prev (fst (process_frame (cv := Toy.cv) Demo.mosaic_A Demo.frame_B))
    = keypoints [(1, 0); (3, 0); (2, 1); (4, 1)]%Q /\
  merge (output_img Demo.mosaic_A)
        (warped_frame (cv := Toy.cv) Demo.mosaic_A Demo.frame_B
           [[1; 0; -1]; [0; 1; 4]; [0; 0; 1]]%Q)
    = Ok (output_img (fst (process_frame (cv := Toy.cv) Demo.mosaic_A Demo.frame_B))).
Proof.
  destruct (@processed_frame_rolls_over Toy.cv Toy.numpy Demo.mosaic_A Demo.frame_B
              (match frame_matches (cv := Toy.cv) Demo.mosaic_A Demo.frame_B with
               | Ok ms => ms | Raise _ => [] end))
    as [Hf [Hk [_ Hm]]].
  - vm_compute. reflexivity.
  - vm_compute. lia.
  - vm_compute. reflexivity.
  - split; [exact Hf|]. split; [rewrite Hk; vm_compute; reflexivity|].
    vm_compute. reflexivity.
Defined.

Lemma skipped_frame_leaves_no_trace_witness :
  process_frame (cv := Toy.cv)
    (fst (process_frame (cv := Toy.cv) Demo.mosaic_A Demo.frame_3kp)) Demo.frame_B
  = process_frame (cv := Toy.cv) Demo.mosaic_A Demo.frame_B /\
  snd (snd (process_frame (cv := Toy.cv) Demo.mosaic_A Demo.frame_B)) = Ok tt.
Proof.
  split; [|vm_compute; reflexivity].
  apply (@skipped_frame_leaves_no_trace Toy.cv Toy.numpy Demo.mosaic_A Demo.frame_3kp Demo.frame_B
           (match frame_matches (cv := Toy.cv) Demo.mosaic_A Demo.frame_3kp with
            | Ok ms => ms | Raise _ => [] end)).
  - vm_compute. reflexivity.
  - vm_compute. lia.
Defined.

(* ================================================================== *)
(** ** [findHomography]: match indices out of range *)

Lemma points_at_in_range (kp : list KeyPoint) (idxs : list nat) :
  Forall (fun i => i < length kp) idxs ->
  exists ps, points_at kp idxs = Ok ps /\ length ps = length idxs.
Proof.
  induction 1 as [|i rest Hi _ [ps [E Hl]]]; [now exists []|].
  cbn [points_at]. destruct (nth_error kp i) as [k|] eqn:N.
  - rewrite E. cbn [Py.bind]. exists (pt k :: ps). split; [reflexivity|].
    cbn [length]. now rewrite Hl.
  - apply nth_error_None in N. lia.
Qed.

Lemma points_at_out_of_range (kp : list KeyPoint) (idxs : list nat) :
  Exists (fun i => length kp <= i) idxs -> points_at kp idxs = Raise index_error.
Proof.
  induction 1 as [i rest Hi | i rest _ IH]; cbn [points_at].
  - apply nth_error_None in Hi. now rewrite Hi.
  - destruct (nth_error kp i); [|reflexivity]. now rewrite IH.
Qed.

Lemma points_at_raises (kp : list KeyPoint) (idxs : list nat) (e : PyExc) :
  points_at kp idxs = Raise e -> e = index_error.
Proof.
  induction idxs as [|i rest IH]; cbn [points_at]; [discriminate|].
  destruct (nth_error kp i); [|congruence].
  destruct (points_at kp rest); cbn [Py.bind]; [discriminate|].
  intros E. apply IH. congruence.
Qed.

Section IndexErrors.

Context {cv : Cv2} {numpy : NumPy}.

(** X8. [findHomography] indexes the keypoints with the indices of the
    matches.  If one index is out of range, of the current keypoints for
    [queryIdx] or of the previous ones for [trainIdx], it raises
    [IndexError] before anything is printed or fitted; if all indices are
    in range, it prints one line and calls one fit, on as many point pairs
    as there are matches. *)
Theorem findHomography_index_error
    (image_1_kp image_2_kp : list KeyPoint) (matches : list DMatch) :
  (Exists (fun m => length image_1_kp <= queryIdx m \/
                    length image_2_kp <= trainIdx m) matches ->
   findHomography image_1_kp image_2_kp matches = ([], Raise index_error)) /\
  (Forall (fun m => queryIdx m < length image_1_kp /\
                    trainIdx m < length image_2_kp) matches ->
   exists msg p1 p2,
     length p1 = length matches /\ length p2 = length matches /\
     (fst (findHomography image_1_kp image_2_kp matches)
        = [Printed msg; Called_estimateAffine2D p1 p2] \/
      fst (findHomography image_1_kp image_2_kp matches)
        = [Printed msg; Called_findHomography p1 p2])).
Proof.
  split.
  - intros He. unfold findHomography, estimate.
    destruct (points_at image_1_kp (map queryIdx matches)) as [p1|e1] eqn:E1.
    + assert (H2 : Exists (fun i => length image_2_kp <= i) (map trainIdx matches)).
      { apply Exists_exists in He as [m [Hin [Hq | Ht]]].
        - exfalso.
          assert (Hex : Exists (fun i => length image_1_kp <= i) (map queryIdx matches))
            by (apply Exists_exists; exists (queryIdx m); split;
                [now apply in_map | exact Hq]).
          apply points_at_out_of_range in Hex. congruence.
        - apply Exists_exists. exists (trainIdx m). split; [now apply in_map | exact Ht]. }
      now rewrite (@points_at_out_of_range _ _ H2).
    + now rewrite (@points_at_raises _ _ _ E1).
  - intros Hf.
    assert (H1 : Forall (fun i => i < length image_1_kp) (map queryIdx matches)).
    { apply Forall_map. eapply Forall_impl; [|exact Hf]. now intros m [Hq _]. }
    assert (H2 : Forall (fun i => i < length image_2_kp) (map trainIdx matches)).
    { apply Forall_map. eapply Forall_impl; [|exact Hf]. now intros m [_ Ht]. }
    destruct (@points_at_in_range _ _ H1) as [p1 [E1 L1]].
    destruct (@points_at_in_range _ _ H2) as [p2 [E2 L2]].
    rewrite length_map in L1, L2.
    unfold findHomography. rewrite (estimate_points _ _ _ E1 E2). cbv zeta.
    destruct (dominant_motion _ _); cbn [fit_for fst];
      eexists _, (np_float32 p1), (np_float32 p2);
      (split; [unfold np_float32; now rewrite length_map|]);
      (split; [unfold np_float32; now rewrite length_map|]);
      ((left; reflexivity) || (right; reflexivity)).
Qed.

End IndexErrors.

Lemma findHomography_index_error_witness :
  findHomography (cv := Toy.cv) cur4 prev_10_5
    [{| queryIdx := 0; trainIdx := 0; distance := 0 |};
     {| queryIdx := 1; trainIdx := 4; distance := 0 |}]
  = ([], Raise index_error).
Proof.
  apply (@findHomography_index_error Toy.cv Toy.numpy cur4 prev_10_5).
  apply Exists_cons_tl, Exists_cons_hd. right. vm_compute. lia.
Defined.

(* ================================================================== *)
(** ** [__init__]: a canvas smaller than the first frame *)

Lemma slice_bound_range (i len : Z) :
  (0 <= len)%Z -> (0 <= Py.slice_bound i len <= len)%Z.
Proof.
  intros Hl. unfold Py.slice_bound.
  destruct (Z.ltb_spec i 0); lia.
Qed.

(** A slice has no more elements than the sequence. *)
Lemma slice_count_le (start stop : Z) (len : nat) :
  Z.to_nat (Py.slice_bound stop (Z.of_nat len) - Py.slice_bound start (Z.of_nat len))
  <= len.
Proof.
  pose proof (@slice_bound_range start (Z.of_nat len)).
  pose proof (@slice_bound_range stop (Z.of_nat len)). lia.
Qed.

Lemma not_broadcastable (v t bound : nat) :
  t <= bound -> bound < v -> 1 < v -> broadcastable v t = false.
Proof.
  intros Ht Hb Hv. unfold broadcastable. apply orb_false_iff.
  split; apply Nat.eqb_neq; lia.
Qed.

(** A frame with more rows, or more columns, than the canvas fits in no
    slice of it. *)
Lemma setitem_slice_too_small (a : Canvas) (v : Frame) (R C K h w k : nat)
    (r0 r1 c0 c1 : Z) :
  shape3 a = (R, C, K) -> shape3 v = (h, w, k) ->
  (R < h /\ 1 < h) \/ (C < w /\ 1 < w) ->
  setitem_slice a r0 r1 c0 c1 v = Raise broadcast_error.
Proof.
  intros Ha Hv Hsmall. unfold setitem_slice, Py.slice_indices. rewrite Ha, Hv.
  pose proof (slice_count_le r0 r1 R) as Hr. pose proof (slice_count_le c0 c1 C) as Hc.
  destruct Hsmall as [[H1 H2] | [H1 H2]].
  - now rewrite (@not_broadcastable _ _ _ Hr H1 H2).
  - rewrite (@not_broadcastable _ _ _ Hc H1 H2). now rewrite andb_false_r.
Qed.

Section InitErrors.

Context {cv : Cv2} {numpy : NumPy}.

(** X9. If a multiplier makes the canvas lower or narrower than the first
    frame (and not empty), the first frame cannot be stored in the canvas
    and [__init__] raises [ValueError]: no object is built. *)
Theorem init_canvas_smaller_than_frame
    (first_image : Frame) (hm wm : Py.number) (dt : string) (h w k : nat)
    (rows cols : Z) :
  shape3 first_image = (h, w, k) ->
  dt = "sift"%string \/ dt = "orb"%string ->
  Py.int_times hm (Z.of_nat h) = Ok rows ->
  Py.int_times wm (Z.of_nat w) = Ok cols ->
  (0 < rows)%Z ->
  (0 < cols)%Z ->
  (rows < Z.of_nat h)%Z \/ (cols < Z.of_nat w)%Z ->
  VideMosaic_init first_image hm wm dt = Raise broadcast_error.
Proof.
  intros Hshape Hdt Erows Ecols HR HC Hsmall.
  assert (Hdet : exists det matcher, new_detector dt = Some (det, matcher))
    by (destruct Hdt as [-> | ->]; eexists _, _; reflexivity).
  destruct Hdet as [det [matcher Hdet]].
  unfold VideMosaic_init. rewrite Hdet.
  destruct (process_first_frame det first_image) as [[f_prev kp] des].
  rewrite Hshape, Erows, Ecols. cbn [Py.bind]. unfold zeros_of.
  destruct (rows <? 0)%Z eqn:E1; [apply Z.ltb_lt in E1; lia|].
  destruct (cols <? 0)%Z eqn:E2; [apply Z.ltb_lt in E2; lia|].
  cbn [orb Py.bind].
  set (R := Z.to_nat rows). set (C := Z.to_nat cols).
  assert (Es : shape3 (zeros R C k) = (R, C, k))
    by (apply shape3_tabulate3; unfold R, C; lia).
  rewrite Es. cbv zeta.
  rewrite (@setitem_slice_too_small (zeros R C k) first_image R C k h w k _ _ _ _
             Es Hshape); [reflexivity|].
  unfold R, C. destruct Hsmall; [left | right]; lia.
Qed.

End InitErrors.

Lemma init_canvas_smaller_than_frame_witness :
  VideMosaic_init (cv := Toy.cv) Demo.frame_A
    (PyFloat (Py.float_literal (1 # 2))) (PyInt 1) "sift" = Raise broadcast_error.
Proof.
  apply (@init_canvas_smaller_than_frame Toy.cv Demo.frame_A
           (PyFloat (Py.float_literal (1 # 2))) (PyInt 1) "sift"%string 2 5 3 1 5).
  - reflexivity.
  - left. reflexivity.
  - vm_compute. reflexivity.
  - vm_compute. reflexivity.
  - lia.
  - lia.
  - left. lia.
Defined.

(* ================================================================== *)
(** ** [main]: the run as a whole *)

Lemma same_setup_trans (a b c : VideMosaic) :
  same_setup a b -> same_setup b c -> same_setup a c.
Proof.
  unfold same_setup.
  intros [A1 [A2 [A3 [A4 [A5 [A6 A7]]]]]] [B1 [B2 [B3 [B4 [B5 [B6 B7]]]]]].
  repeat split; congruence.
Qed.

Lemma forall_below_spec (bits : nat) (p : Z -> bool) :
  forall base, forall_below bits base p = true ->
  forall z, (base <= z < base + 2 ^ Z.of_nat bits)%Z -> p z = true.
Proof.
  induction bits as [|b IH]; intros base Hall z Hz; cbn [forall_below] in Hall.
  - change (2 ^ Z.of_nat 0)%Z with 1%Z in Hz. now replace z with base by lia.
  - apply andb_true_iff in Hall as [Hlo Hhi].
    rewrite Nat2Z.inj_succ, Z.pow_succ_r in Hz by lia.
    destruct (Z.lt_ge_cases z (base + 2 ^ Z.of_nat b)).
    + apply (IH base Hlo). lia.
    + apply (IH _ Hhi). lia.
Qed.

(** [int(3 * h)] and [int(1.2 * w)] for the multipliers of [main]; the
    second one is checked on every width below 2^16. *)
Lemma int_times_3 (h : nat) :
  Py.int_times height_times_default (Z.of_nat h) = Ok (Z.of_nat (3 * h)).
Proof.
  unfold height_times_default. cbn [Py.int_times Py.mul_int Py.bind Py.int_of_number].
  now rewrite Nat2Z.inj_mul.
Qed.

Lemma default_width_below_2_16 : forall_below 16 0 default_width_is_exact = true.
Proof. vm_compute. reflexivity. Qed.

Lemma int_times_1_2 (w : nat) :
  (Z.of_nat w < 2 ^ 16)%Z ->
  Py.int_times width_times_default (Z.of_nat w) = Ok (Z.of_nat (12 * w / 10)).
Proof.
  intros Hw.
  pose proof (@forall_below_spec 16 default_width_is_exact 0%Z
                default_width_below_2_16 (Z.of_nat w)) as Hok.
  unfold default_width_is_exact in Hok.
  destruct (Py.int_times width_times_default (Z.of_nat w)) as [cols|e].
  - apply Z.eqb_eq in Hok; [|change (2 ^ Z.of_nat 16)%Z with (2 ^ 16)%Z; lia].
    rewrite Hok, Nat2Z.inj_div, Nat2Z.inj_mul. reflexivity.
  - discriminate Hok. change (2 ^ Z.of_nat 16)%Z with (2 ^ 16)%Z. lia.
Qed.

Section WholeRun.

Context {cv : Cv2} {numpy : NumPy}.

Lemma findHomography_log_no_imwrite kp1 kp2 matches :
  Forall not_imwrite (fst (findHomography kp1 kp2 matches)).
Proof.
  unfold findHomography, estimate.
  destruct (points_at kp1 _); [|constructor].
  destruct (points_at kp2 _); [|constructor].
  destruct (mean_displacement _) as [dx dy].
  destruct (dominant_motion dx dy); simpl; repeat constructor.
Qed.

Lemma process_frame_log_no_imwrite (self : VideMosaic) (frame_cur : Frame) :
  Forall not_imwrite (fst (snd (process_frame self frame_cur))).
Proof.
  rewrite process_frame_unfold. cbv zeta.
  destruct (frame_matches self frame_cur) as [matches|e0]; [|constructor].
  destruct (length matches <? 4); [constructor|].
  pose proof (findHomography_log_no_imwrite (frame_keypoints self frame_cur)
                (kp_prev self) matches) as Hl.
  destruct (findHomography _ (kp_prev self) matches) as [log1 [Hinc|e1]];
    cbn [fst] in Hl; [|exact Hl].
  destruct (matmul (H_old self) Hinc) as [Hnew|e2]; [|exact Hl].
  rewrite warp_unfold.
  destruct (merge _ _) as [out|e3]; cbn [fst snd]; apply Forall_app; (split; [exact Hl|]);
    destruct (has_shape Hnew 2 3); repeat constructor.
Qed.

Lemma main_loop_log_no_imwrite (frames : list Frame) (q_pressed : nat -> bool) :
  forall (vm : VideMosaic) (idx : nat),
    Forall not_imwrite (fst (main_loop vm frames idx q_pressed)).
Proof.
  induction frames as [|f rest IH]; intros vm idx; cbn [main_loop]; [constructor|].
  pose proof (process_frame_log_no_imwrite vm f) as Hl.
  destruct (process_frame vm f) as [vm1 [log [[]|e]]]; cbn [fst snd] in *;
    [|exact Hl].
  destruct (q_pressed idx); [exact Hl|].
  specialize (IH vm1 (S idx)).
  destruct (main_loop vm1 rest (S idx) q_pressed) as [log' r']. cbn [fst] in *.
  apply Forall_app. now split.
Qed.

Lemma main_loop_same_setup (frames : list Frame) (q_pressed : nat -> bool) :
  forall (vm vm' : VideMosaic) (idx : nat),
    snd (main_loop vm frames idx q_pressed) = Ok vm' -> same_setup vm vm'.
Proof.
  induction frames as [|f rest IH]; intros vm vm' idx; cbn [main_loop].
  - intros E. injection E as <-. apply same_setup_refl.
  - pose proof (process_frame_same_setup vm f) as Hs.
    destruct (process_frame vm f) as [vm1 [log [[]|e]]]; cbn [fst snd] in *;
      [|discriminate].
    destruct (q_pressed idx).
    + cbn [snd]. intros E. injection E as <-. exact Hs.
    + specialize (IH vm1 vm' (S idx)).
      destruct (main_loop vm1 rest (S idx) q_pressed) as [log' r']. cbn [snd] in *.
      intros E. exact (same_setup_trans Hs (IH E)).
Qed.

Lemma main_loop_stops_at_q (before after : list Frame) (f : Frame)
    (q_pressed : nat -> bool) :
  forall (vm : VideMosaic) (idx : nat),
    q_pressed (idx + length before) = true ->
    main_loop vm (before ++ f :: after) idx q_pressed
    = main_loop vm (before ++ [f]) idx q_pressed.
Proof.
  induction before as [|b before IH]; intros vm idx Hq; cbn [app main_loop length] in *.
  - rewrite Nat.add_0_r in Hq.
    destruct (process_frame vm f) as [vm1 [log [[]|e]]]; [|reflexivity].
    now rewrite Hq.
  - destruct (process_frame vm b) as [vm1 [log [[]|e]]]; [|reflexivity].
    destruct (q_pressed idx); [reflexivity|].
    rewrite (IH vm1 (S idx)) by (rewrite <- Hq; f_equal; lia).
    reflexivity.
Qed.

(** X10. When [q] is read after a frame, the frames that follow it in the
    video are not read: the run prints, calls and writes what it would on
    the video cut after that frame. *)
Theorem main_stops_when_q_is_pressed
    (first_frame f : Frame) (before after : list Frame) (q_pressed : nat -> bool) :
  q_pressed (1 + length before) = true ->
  main (Some (first_frame :: before ++ f :: after)) q_pressed
  = main (Some (first_frame :: before ++ [f])) q_pressed.
Proof.
  intros Hq. cbn [main].
  destruct (VideMosaic_init first_frame height_times_default width_times_default "sift") as [vm|e]; [|reflexivity].
  now rewrite (main_loop_stops_at_q before after f q_pressed vm 1 Hq).
Qed.

(** X11. [main] writes the mosaic at most once, and only as the last
    thing but one of a run that did not raise: a run that raises, or finds
    no frame, writes nothing; otherwise the canvas written is the one
    returned and nothing was written before. *)
Theorem main_writes_the_mosaic_last
    (video : option (list Frame)) (q_pressed : nat -> bool) :
  match snd (main video q_pressed) with
  | Ok (Some canvas) =>
      exists log,
        fst (main video q_pressed)
          = log ++ [Called_imwrite "mosaic.jpg" canvas;
                    Printed "Mosaic saved as mosaic.jpg"] /\
        Forall not_imwrite log
  | Ok None | Raise _ => Forall not_imwrite (fst (main video q_pressed))
  end.
Proof.
  destruct video as [[|first_frame rest]|]; cbn [main fst snd];
    try (repeat constructor).
  destruct (VideMosaic_init first_frame height_times_default width_times_default "sift") as [vm|e];
    cbn [fst snd]; [|constructor].
  pose proof (main_loop_log_no_imwrite rest q_pressed vm 1) as Hl.
  destruct (main_loop vm rest 1 q_pressed) as [log [vm'|e]]; cbn [fst snd] in *.
  - exists log. now split.
  - exact Hl.
Qed.

(** X12. Neither a call of [process_frame] nor a whole run changes the
    detector, the matcher, the offsets or the extents of the canvas; so
    for a first frame of [h] rows and [w] columns, [w] below 2^16,
    whatever the later frames, the mosaic [main] writes has [3 h] rows and
    [12 w / 10] columns (integer division), with the channels of the first
    frame. *)
Theorem mosaic_extents_are_fixed_by_first_frame :
  (forall (self : VideMosaic) (frame_cur : Frame),
     same_setup self (fst (process_frame self frame_cur))) /\
  (forall (first_frame : Frame) (rest : list Frame) (q_pressed : nat -> bool)
          (canvas : Canvas) (h w k : nat),
     shape3 first_frame = (h, w, k) -> 0 < h -> 0 < w -> (Z.of_nat w < 2 ^ 16)%Z ->
     snd (main (Some (first_frame :: rest)) q_pressed) = Ok (Some canvas) ->
     shape3 canvas = (3 * h, 12 * w / 10, k)).
Proof.
  split; [exact process_frame_same_setup|].
  intros first_frame rest q_pressed canvas h w k Hshape Hh Hw Hw16.
  assert (Hcw : w <= 12 * w / 10).
  { apply Nat.div_le_lower_bound; lia. }
  destruct (@init_spec cv first_frame height_times_default width_times_default
              "sift"%string h w k (3 * h) (12 * w / 10)
              (SIFT_create 600) (FlannBasedMatcher 1 5 50) Hshape Hh Hw
              (int_times_3 h) (int_times_1_2 w Hw16))
    as [vm [E [Es _]]]; [lia | exact Hcw | reflexivity |].
  cbn [main]. rewrite E.
  pose proof (fun vm' => @main_loop_same_setup rest q_pressed vm vm' 1) as Hs.
  destruct (main_loop vm rest 1 q_pressed) as [log [vm'|e]]; cbn [snd] in *;
    [|discriminate].
  intros Ec. injection Ec as <-.
  destruct (Hs vm' eq_refl) as [_ [_ [_ [_ [_ [_ Hsh]]]]]]. now rewrite Hsh.
Qed.

End WholeRun.

Lemma main_stops_when_q_is_pressed_witness :
  main (cv := Toy.cv) (Some [Demo.frame_A; Demo.frame_B; Demo.frame_torn])
       (fun i => i =? 1)
  = main (cv := Toy.cv) (Some [Demo.frame_A; Demo.frame_B]) (fun i => i =? 1) /\
  Py.is_ok (snd (main (cv := Toy.cv) (Some [Demo.frame_A; Demo.frame_B; Demo.frame_torn])
                      (fun i => i =? 1))) = true.
Proof.
  split; [|vm_compute; reflexivity].
  apply (@main_stops_when_q_is_pressed Toy.cv Toy.numpy Demo.frame_A Demo.frame_B []
           [Demo.frame_torn] (fun i => i =? 1)).
  reflexivity.
Defined.
